(** * JCMS: the JNI binding of Little CMS (src/jni/cpp/jcms.cpp)

    The binding is ten C++ functions.  Each one marshals its arguments
    through the JNI environment, calls one or more functions of the Little
    CMS library and marshals the result back.  The development below embeds
    them as programs of a small state-and-fault monad over

    - the state of the library, reached only through its C interface
      (class [Lcms]);
    - the state of the hosting runtime: the Java objects behind the
      references the binding holds, the native views of strings and arrays
      it has handed out, and the pending exception;

    and records every JNI call, library call and delete-expression a
    program performs, in program order. *)

From Stdlib Require Import ZArith Lia.
From Stdlib Require Import Strings.Byte.
From stdpp Require Import base gmap list.

Local Open Scope Z_scope.

(** ** Machine integers and the casts of the source *)

Module Int.

Definition wrap_unsigned (bits x : Z) : Z := x mod 2 ^ bits.

Definition wrap_signed (bits x : Z) : Z :=
  (x + 2 ^ (bits - 1)) mod 2 ^ bits - 2 ^ (bits - 1).

Definition is_uint32 (x : Z) : Prop := 0 <= x < 2 ^ 32.
Definition is_jint (x : Z) : Prop := - 2 ^ 31 <= x < 2 ^ 31.
Definition is_jlong (x : Z) : Prop := - 2 ^ 63 <= x < 2 ^ 63.

(** A native pointer of the target platform: 64 bits, unsigned. *)
Definition is_pointer (p : Z) : Prop := 0 <= p < 2 ^ 64.

(** The casts of a jlong argument to [void *] and to [cmsHPROFILE]. *)
Definition pointer_of_jlong (h : Z) : Z := wrap_unsigned 64 h.

(** The cast [(jlong) hProfile] of a returned handle. *)
Definition jlong_of_pointer (p : Z) : Z := wrap_signed 64 p.

(** The cast [(jsize) size] of a cmsUInt32Number. *)
Definition jsize_of_uint32 (n : Z) : Z := wrap_signed 32 n.

(** The cast [(cmsUInt32Number) size] of a jsize. *)
Definition uint32_of_jsize (n : Z) : Z := wrap_unsigned 32 n.

(** The conversion of a jint argument to a cmsUInt32Number parameter, which
    C++ applies where the source passes one for the other. *)
Definition uint32_of_jint (x : Z) : Z := wrap_unsigned 32 x.

(** The jint that has the 32 bits of a cmsUInt32Number. *)
Definition jint_of_uint32 (x : Z) : Z := wrap_signed 32 x.

End Int.

(** ** Values that cross the boundary *)

(** A JNI reference ([jobject], [jstring], [jbyteArray]); [NULL] is 0. *)
Definition jobject := N.
Definition NULL : N := 0%N.

(** The address of a native buffer handed out by the runtime
    (a [const char *] or a [jbyte *]); 0 is the null pointer. *)
Definition address := N.

Definition jlong := Z.
Definition jint := Z.
Definition jsize := Z.
Definition jboolean := bool.

(** A [jdouble] is only carried from the caller to the library: it is
    represented by the 64 bits of its IEEE-754 encoding. *)
Definition jdouble := Z.

Definition cmsUInt32Number := Z.
Definition cmsHPROFILE := Z.
Definition cmsHTRANSFORM := Z.

Inductive cmsInfoType :=
| cmsInfoDescription
| cmsInfoManufacturer
| cmsInfoModel
| cmsInfoCopyright.

(** The C string literals of the source. *)
Definition lit_en : list byte := [x65; x6e].
Definition lit_EN : list byte := [x45; x4e].

(** ** The external library

    Little CMS is outside the repository.  The binding sees it as a set of
    C functions over a state of its own; each function is given here as a
    function of its arguments and of that state.  Memory the library reads
    is passed as the bytes it holds; memory the library writes is returned
    as the bytes stored from the start of the destination.  Integer
    arguments are the values of the parameters, after the conversions of
    the call. *)

Class Lcms (L : Type) := {
  cmsOpenProfileFromFile : list byte → list byte → L → cmsHPROFILE * L;
  cmsOpenProfileFromMem : list byte → cmsUInt32Number → L → cmsHPROFILE * L;
  cmsCloseProfile : cmsHPROFILE → L → bool * L;
  (** handle, info, language, country, BufferSize: bytes stored at Buffer
      and the returned count. *)
  cmsGetProfileInfoASCII :
    cmsHPROFILE → cmsInfoType → list byte → list byte → cmsUInt32Number → L →
    (list byte * cmsUInt32Number) * L;
  (** handle, the destination ([None] for a null MemPtr, else its present
      contents), *BytesNeeded on entry: success flag, *BytesNeeded on
      return, bytes stored at MemPtr. *)
  cmsSaveProfileToMem :
    cmsHPROFILE → option (list byte) → cmsUInt32Number → L →
    (bool * cmsUInt32Number * list byte) * L;
  cmsCreateTransform :
    cmsHPROFILE → Z → cmsHPROFILE → Z → Z → Z → L → cmsHTRANSFORM * L;
  cmsDeleteTransform : cmsHTRANSFORM → L → L;
  (** transform, input bytes, present output bytes, Size: bytes stored at
      OutputBuffer. *)
  cmsDoTransform : cmsHTRANSFORM → list byte → list byte → Z → L → list byte * L;
  cmsCreate_sRGBProfile : L → cmsHPROFILE * L;
  cmsBuildGamma : Z → jdouble → L → Z * L;
  cmsD50_xyY : L → Z;
  cmsCreateGrayProfile : Z → Z → L → cmsHPROFILE * L;
  cmsFreeToneCurve : Z → L → L;
  (** What the C types of the interface guarantee. *)
  cmsOpenProfileFromFile_pointer f m l :
    Int.is_pointer (cmsOpenProfileFromFile f m l).1;
  cmsOpenProfileFromMem_pointer d n l :
    Int.is_pointer (cmsOpenProfileFromMem d n l).1;
  cmsCreateTransform_pointer hi ti ho to i f l :
    Int.is_pointer (cmsCreateTransform hi ti ho to i f l).1;
  cmsCreate_sRGBProfile_pointer l :
    Int.is_pointer (cmsCreate_sRGBProfile l).1;
  cmsCreateGrayProfile_pointer wp c l :
    Int.is_pointer (cmsCreateGrayProfile wp c l).1;
  cmsSaveProfileToMem_uint32 h d n l :
    Int.is_uint32 (cmsSaveProfileToMem h d n l).1.1.2;
}.

(** ** The hosting runtime *)

Inductive jvalue :=
| JString (utf : list byte)       (* a String, by its modified UTF-8 bytes *)
| JByteArray (elems : list byte). (* a byte[] *)

(** A native view of a Java object, alive between its Get and its Release. *)
Inductive View :=
| StringChars (owner : jobject) (chars : list byte)
| ByteElements (owner : jobject) (elems : list byte).

Inductive Throwable :=
| NegativeArraySizeException
| OutOfMemoryError.

Record World (L : Type) := mkWorld {
  lcms : L;
  heap : gmap N jvalue;
  views : gmap N View;
  pending : option Throwable;
}.
Arguments mkWorld {L}.
Arguments lcms {L}.
Arguments heap {L}.
Arguments views {L}.
Arguments pending {L}.

Definition set_lcms {L} (l : L) (w : World L) : World L :=
  mkWorld l (heap w) (views w) (pending w).
Definition set_heap {L} (h : gmap N jvalue) (w : World L) : World L :=
  mkWorld (lcms w) h (views w) (pending w).
Definition set_views {L} (v : gmap N View) (w : World L) : World L :=
  mkWorld (lcms w) (heap w) v (pending w).
Definition set_pending {L} (e : option Throwable) (w : World L) : World L :=
  mkWorld (lcms w) (heap w) (views w) e.

(** The object behind a reference; the null reference has none. *)
Definition deref {L} (r : jobject) (w : World L) : option jvalue :=
  if (r =? NULL)%N then None else heap w !! r.

Definition string_behind {L} (r : jobject) (w : World L) : option (list byte) :=
  match deref r w with Some (JString s) => Some s | _ => None end.

Definition array_behind {L} (r : jobject) (w : World L) : option (list byte) :=
  match deref r w with Some (JByteArray bs) => Some bs | _ => None end.

(** ** What a program does, in order *)

Inductive LcmsCall :=
| CallOpenProfileFromFile (file mode : list byte) (ret : cmsHPROFILE)
| CallOpenProfileFromMem (mem : list byte) (size : cmsUInt32Number) (ret : cmsHPROFILE)
| CallCloseProfile (h : cmsHPROFILE) (ret : bool)
| CallGetProfileInfoASCII (h : cmsHPROFILE) (info : cmsInfoType)
    (language country : list byte) (bufsize : cmsUInt32Number)
| CallSaveProfileToMem (h : cmsHPROFILE) (dest : option (list byte))
    (size_in : cmsUInt32Number) (ret : bool) (size_out : cmsUInt32Number)
| CallCreateTransform (hin : cmsHPROFILE) (tin : Z) (hout : cmsHPROFILE)
    (tout intent flags : Z) (ret : cmsHTRANSFORM)
| CallDeleteTransform (h : cmsHTRANSFORM)
| CallDoTransform (h : cmsHTRANSFORM) (input output : list byte) (size : Z)
| CallCreate_sRGBProfile (ret : cmsHPROFILE)
| CallBuildGamma (ctx : Z) (gamma : jdouble) (ret : Z)
| CallD50_xyY (ret : Z)
| CallCreateGrayProfile (whitepoint curve : Z) (ret : cmsHPROFILE)
| CallFreeToneCurve (curve : Z).

Inductive Event :=
| EvGetStringUTFChars (s : jobject) (v : address)
| EvReleaseStringUTFChars (s : jobject) (v : address)
| EvGetByteArrayElements (a : jobject) (v : address)
| EvReleaseByteArrayElements (a : jobject) (v : address) (mode : Z)
| EvGetArrayLength (a : jobject) (n : jsize)
| EvNewByteArray (len : jsize) (r : jobject)
| EvNewStringUTF (r : jobject)
| EvDelete (p : N)
| EvLcms (c : LcmsCall).

(** ** Faults: executions the C++ and JNI rules leave undefined *)

Inductive Fault :=
| NullReference       (* a JNI call on the null reference *)
| WrongReference      (* a JNI call on a reference of another type, or dead *)
| DanglingPointer     (* the library is given an address that is no view *)
| InvalidRelease      (* a Release of a view that is not alive for that owner *)
| InvalidDelete       (* a delete-expression on storage no new-expression made *)
| IndeterminateRead   (* a read of a byte that was never written *)
| BufferOverrun.      (* a read past the end of an automatic array *)

Inductive Outcome (L A : Type) :=
| Returns (a : A) (w : World L) (t : list Event)
| Crashes (f : Fault) (w : World L) (t : list Event).
Arguments Returns {L A}.
Arguments Crashes {L A}.

Definition M (L A : Type) : Type := World L → Outcome L A.

Definition M_ret {L A} (a : A) : M L A := λ w, Returns a w [].

Definition M_bind {L A B} (k : A → M L B) (m : M L A) : M L B :=
  λ w, match m w with
       | Returns a w1 t1 =>
           match k a w1 with
           | Returns b w2 t2 => Returns b w2 (t1 ++ t2)
           | Crashes f w2 t2 => Crashes f w2 (t1 ++ t2)
           end
       | Crashes f w1 t1 => Crashes f w1 t1
       end.

#[export] Instance M_mret {L} : MRet (M L) := @M_ret L.
#[export] Instance M_mbind {L} : MBind (M L) := @M_bind L.

Definition events {L A} (o : Outcome L A) : list Event :=
  match o with Returns _ _ t => t | Crashes _ _ t => t end.

Definition final {L A} (o : Outcome L A) : World L :=
  match o with Returns _ w _ => w | Crashes _ w _ => w end.

Definition returned {L A} (o : Outcome L A) : option A :=
  match o with Returns a _ _ => Some a | Crashes _ _ _ => None end.

Definition fault {L A} (o : Outcome L A) : option Fault :=
  match o with Returns _ _ _ => None | Crashes f _ _ => Some f end.

(** ** Native memory *)

(** An automatic array that was declared without initialiser: every byte
    is indeterminate until it is written.  Reading such a byte is
    undefined and is recorded as a fault; [on_stack] below gives what a
    machine reads in its place. *)
Definition uninitialised (n : nat) : list (option byte) := replicate n None.

(** The library stores [stored] from the start of a buffer; the buffer
    keeps its size.  What a library would store past the end of the
    buffer is not kept: that overrun is the library's, not the
    binding's. *)
Definition store_elems (stored buf : list byte) : list byte :=
  take (length buf) (stored ++ drop (length stored) buf).

Definition store_chars (stored : list byte) (buf : list (option byte))
  : list (option byte) :=
  take (length buf) (map Some stored ++ drop (length stored) buf).

(** Reading a C string out of an array: up to the first NUL. *)
Fixpoint read_cstring (buf : list (option byte)) : Fault + list byte :=
  match buf with
  | [] => inl BufferOverrun
  | None :: _ => inl IndeterminateRead
  | Some b :: rest =>
      if Byte.eqb b x00 then inr []
      else match read_cstring rest with
           | inr s => inr (b :: s)
           | inl f => inl f
           end
  end.

(** What a machine reads from a buffer laid over [stack]: the bytes that
    were written, and under every byte that was not, the byte the stack
    holds there. *)
Fixpoint on_stack (stack : list byte) (buf : list (option byte))
  : list (option byte) :=
  match buf, stack with
  | [], _ => []
  | c :: buf', [] => c :: buf'
  | c :: buf', s :: stack' => Some (default s c) :: on_stack stack' buf'
  end.

#[global] Arguments uninitialised : simpl never.
#[global] Arguments store_elems : simpl never.
#[global] Arguments store_chars : simpl never.
#[global] Arguments Int.pointer_of_jlong : simpl never.
#[global] Arguments Int.jlong_of_pointer : simpl never.
#[global] Arguments Int.jsize_of_uint32 : simpl never.
#[global] Arguments Int.uint32_of_jsize : simpl never.
#[global] Arguments Int.uint32_of_jint : simpl never.
#[global] Arguments Int.jint_of_uint32 : simpl never.

Definition fresh_key {V} (m : gmap N V) : N := fresh ({[0%N]} ∪ dom m).

Definition reference_fault (r : jobject) : Fault :=
  if (r =? NULL)%N then NullReference else WrongReference.

(** Whether the runtime can construct a byte array of a given length.
    The binding is written against any runtime; a property that names
    none is stated for the runtime that always can. *)
Class Allocator := constructs : jsize → bool.

Section Binding.

Context {L : Type} `{!Lcms L} `{!Allocator}.

(** ** The JNI functions the binding calls *)

(** The runtime hands out the characters of a String at a fresh, non-null
    address. *)
Definition GetStringUTFChars (s : jobject) : M L address :=
  λ w, match deref s w with
       | Some (JString cs) =>
           let v := fresh_key (views w) in
           Returns v (set_views (<[v := StringChars s cs]> (views w)) w)
                   [EvGetStringUTFChars s v]
       | _ => Crashes (reference_fault s) w []
       end.

Definition ReleaseStringUTFChars (s : jobject) (v : address) : M L unit :=
  λ w, match views w !! v with
       | Some (StringChars s' _) =>
           if (s' =? s)%N
           then Returns tt (set_views (delete v (views w)) w)
                        [EvReleaseStringUTFChars s v]
           else Crashes InvalidRelease w []
       | _ => Crashes InvalidRelease w []
       end.

(** The elements of a byte[] are handed out at a fresh, non-null address;
    what is stored there reaches the array when the view is released. *)
Definition GetByteArrayElements (a : jobject) : M L address :=
  λ w, match deref a w with
       | Some (JByteArray bs) =>
           let v := fresh_key (views w) in
           Returns v (set_views (<[v := ByteElements a bs]> (views w)) w)
                   [EvGetByteArrayElements a v]
       | _ => Crashes (reference_fault a) w []
       end.

Definition GetArrayLength (a : jobject) : M L jsize :=
  λ w, match deref a w with
       | Some (JByteArray bs) =>
           let n := Z.of_nat (length bs) in
           Returns n w [EvGetArrayLength a n]
       | _ => Crashes (reference_fault a) w []
       end.

(** Modes: 0 copies back and frees the view, JNI_COMMIT (1) copies back and
    keeps it, JNI_ABORT (2) frees it without copying. *)
Definition ReleaseByteArrayElements (a : jobject) (v : address) (mode : Z)
  : M L unit :=
  λ w, match views w !! v, deref a w with
       | Some (ByteElements a' bs), Some (JByteArray _) =>
           if (a' =? a)%N
           then
             let h := if mode =? 2 then heap w else <[a := JByteArray bs]> (heap w) in
             let vs := if mode =? 1 then views w else delete v (views w) in
             Returns tt (set_views vs (set_heap h w))
                     [EvReleaseByteArrayElements a v mode]
           else Crashes InvalidRelease w []
       | _, _ => Crashes InvalidRelease w []
       end.

(** A new byte[] of [len] zero bytes behind a fresh, non-null reference.
    A negative length raises NegativeArraySizeException and yields NULL;
    so does, with OutOfMemoryError, a length the runtime cannot construct
    an array of. *)
Definition NewByteArray (len : jsize) : M L jobject :=
  λ w, if len <? 0
       then Returns NULL (set_pending (Some NegativeArraySizeException) w)
                    [EvNewByteArray len NULL]
       else if constructs len
       then
         let r := fresh_key (heap w) in
         Returns r (set_heap (<[r := JByteArray (replicate (Z.to_nat len) x00)]> (heap w)) w)
                 [EvNewByteArray len r]
       else Returns NULL (set_pending (Some OutOfMemoryError) w)
                    [EvNewByteArray len NULL].

(** A new String from the C string that starts at [buf]. *)
Definition NewStringUTF (buf : list (option byte)) : M L jobject :=
  λ w, match read_cstring buf with
       | inr s =>
           let r := fresh_key (heap w) in
           Returns r (set_heap (<[r := JString s]> (heap w)) w) [EvNewStringUTF r]
       | inl f => Crashes f w []
       end.

(** ** The delete-expression

    [delete p] does nothing when [p] is null; otherwise [p] must be storage
    a new-expression returned.  The binding has no new-expression, so no
    pointer it holds qualifies. *)
Definition cxx_delete (p : N) : M L unit :=
  λ w, if (p =? 0)%N then Returns tt w [EvDelete p]
       else Crashes InvalidDelete w [EvDelete p].

(** ** Calls into the library, with the memory behind the pointers *)

Definition chars_at (v : address) (w : World L) : option (list byte) :=
  match views w !! v with
  | Some (StringChars _ cs) => Some cs
  | _ => None
  end.

Definition elems_at (v : address) (w : World L) : option (jobject * list byte) :=
  match views w !! v with
  | Some (ByteElements a bs) => Some (a, bs)
  | _ => None
  end.

Definition lcms_OpenProfileFromFile (strFilename strMode : address)
  : M L cmsHPROFILE :=
  λ w, match chars_at strFilename w, chars_at strMode w with
       | Some f, Some m =>
           let '(h, l) := cmsOpenProfileFromFile f m (lcms w) in
           Returns h (set_lcms l w) [EvLcms (CallOpenProfileFromFile f m h)]
       | _, _ => Crashes DanglingPointer w []
       end.

Definition lcms_OpenProfileFromMem (data : address) (size : cmsUInt32Number)
  : M L cmsHPROFILE :=
  λ w, match elems_at data w with
       | Some (_, bs) =>
           let '(h, l) := cmsOpenProfileFromMem bs size (lcms w) in
           Returns h (set_lcms l w) [EvLcms (CallOpenProfileFromMem bs size h)]
       | None => Crashes DanglingPointer w []
       end.

Definition lcms_CloseProfile (h : cmsHPROFILE) : M L bool :=
  λ w, let '(b, l) := cmsCloseProfile h (lcms w) in
       Returns b (set_lcms l w) [EvLcms (CallCloseProfile h b)].

(** The destination is an automatic array of the caller; the call returns
    the array as the library leaves it. *)
Definition lcms_GetProfileInfoASCII (h : cmsHPROFILE) (info : cmsInfoType)
    (language country : list byte) (buf : list (option byte))
    (bufsize : cmsUInt32Number) : M L (list (option byte)) :=
  λ w, let '(stored, _, l) := cmsGetProfileInfoASCII h info language country bufsize (lcms w) in
       Returns (store_chars stored buf) (set_lcms l w)
               [EvLcms (CallGetProfileInfoASCII h info language country bufsize)].

(** [size] is the value of the variable whose address is passed; the call
    returns the success flag and the value the library leaves there. *)
Definition lcms_SaveProfileToMem (h : cmsHPROFILE) (MemPtr : address)
    (size : cmsUInt32Number) : M L (bool * cmsUInt32Number) :=
  λ w, if (MemPtr =? 0)%N
       then
         let '(ok, size', _, l) := cmsSaveProfileToMem h None size (lcms w) in
         Returns (ok, size') (set_lcms l w)
                 [EvLcms (CallSaveProfileToMem h None size ok size')]
       else
         match elems_at MemPtr w with
         | Some (a, bs) =>
             let '(ok, size', stored, l) := cmsSaveProfileToMem h (Some bs) size (lcms w) in
             Returns (ok, size')
                     (set_views (<[MemPtr := ByteElements a (store_elems stored bs)]> (views w))
                                (set_lcms l w))
                     [EvLcms (CallSaveProfileToMem h (Some bs) size ok size')]
         | None => Crashes DanglingPointer w []
         end.

(** InputFormat, OutputFormat, Intent and dwFlags are cmsUInt32Number
    parameters: the jint arguments are converted. *)
Definition lcms_CreateTransform (hin : cmsHPROFILE) (inputType : jint)
    (hout : cmsHPROFILE) (outputType intent flags : jint) : M L cmsHTRANSFORM :=
  λ w, let tin := Int.uint32_of_jint inputType in
       let tout := Int.uint32_of_jint outputType in
       let i := Int.uint32_of_jint intent in
       let f := Int.uint32_of_jint flags in
       let '(t, l) := cmsCreateTransform hin tin hout tout i f (lcms w) in
       Returns t (set_lcms l w)
               [EvLcms (CallCreateTransform hin tin hout tout i f t)].

Definition lcms_DeleteTransform (t : cmsHTRANSFORM) : M L unit :=
  λ w, Returns tt (set_lcms (cmsDeleteTransform t (lcms w)) w)
               [EvLcms (CallDeleteTransform t)].

(** Size is a cmsUInt32Number parameter: the jint argument is converted. *)
Definition lcms_DoTransform (t : cmsHTRANSFORM) (input output : address)
    (size : jint) : M L unit :=
  λ w, match elems_at input w, elems_at output w with
       | Some (_, ibs), Some (a, obs) =>
           let n := Int.uint32_of_jint size in
           let '(stored, l) := cmsDoTransform t ibs obs n (lcms w) in
           Returns tt
                   (set_views (<[output := ByteElements a (store_elems stored obs)]> (views w))
                              (set_lcms l w))
                   [EvLcms (CallDoTransform t ibs obs n)]
       | _, _ => Crashes DanglingPointer w []
       end.

Definition lcms_Create_sRGBProfile : M L cmsHPROFILE :=
  λ w, let '(h, l) := cmsCreate_sRGBProfile (lcms w) in
       Returns h (set_lcms l w) [EvLcms (CallCreate_sRGBProfile h)].

Definition lcms_BuildGamma (ctx : Z) (gamma : jdouble) : M L Z :=
  λ w, let '(c, l) := cmsBuildGamma ctx gamma (lcms w) in
       Returns c (set_lcms l w) [EvLcms (CallBuildGamma ctx gamma c)].

Definition lcms_D50_xyY : M L Z :=
  λ w, let p := cmsD50_xyY (lcms w) in
       Returns p w [EvLcms (CallD50_xyY p)].

Definition lcms_CreateGrayProfile (whitepoint curve : Z) : M L cmsHPROFILE :=
  λ w, let '(h, l) := cmsCreateGrayProfile whitepoint curve (lcms w) in
       Returns h (set_lcms l w) [EvLcms (CallCreateGrayProfile whitepoint curve h)].

Definition lcms_FreeToneCurve (curve : Z) : M L unit :=
  λ w, Returns tt (set_lcms (cmsFreeToneCurve curve (lcms w)) w)
               [EvLcms (CallFreeToneCurve curve)].

(** ** The functions of jcms.cpp *)

Definition Java_com_gmail_etordera_jcms_JCMS_cmsOpenProfileFromFile
    (filename mode : jobject) : M L jlong :=
  strFilename ← GetStringUTFChars filename;
  strMode ← GetStringUTFChars mode;
  hProfile ← lcms_OpenProfileFromFile strFilename strMode;
  ReleaseStringUTFChars filename strFilename;;
  ReleaseStringUTFChars mode strMode;;
  mret (Int.jlong_of_pointer hProfile).

Definition Java_com_gmail_etordera_jcms_JCMS_cmsOpenProfileFromMem
    (dataBuffer : jobject) : M L jlong :=
  data ← GetByteArrayElements dataBuffer;
  size ← GetArrayLength dataBuffer;
  hProfile ← lcms_OpenProfileFromMem data (Int.uint32_of_jsize size);
  ReleaseByteArrayElements dataBuffer data 0;;
  mret (Int.jlong_of_pointer hProfile).

Definition Java_com_gmail_etordera_jcms_JCMS_cmsCloseProfile
    (hprofile : jlong) : M L jboolean :=
  lcms_CloseProfile (Int.pointer_of_jlong hprofile);;
  mret true.

Definition Java_com_gmail_etordera_jcms_JCMS_cmsGetProfileInfoASCII
    (hprofile : jlong) : M L jobject :=
  let textBuffer := uninitialised 512 in
  textBuffer ← lcms_GetProfileInfoASCII (Int.pointer_of_jlong hprofile)
                 cmsInfoDescription lit_en lit_EN textBuffer 512;
  NewStringUTF textBuffer.

Definition Java_com_gmail_etordera_jcms_JCMS_cmsSaveProfileToMem
    (hprofile : jlong) : M L jobject :=
  (* Get required buffer size *)
  let size := 0 in
  '(ok, size) ← lcms_SaveProfileToMem (Int.pointer_of_jlong hprofile) 0%N size;
  if negb ok then NewByteArray 0
  else
    (* Generate buffer and save data *)
    dataBuffer ← NewByteArray (Int.jsize_of_uint32 size);
    data ← GetByteArrayElements dataBuffer;
    '(ok, size) ← lcms_SaveProfileToMem (Int.pointer_of_jlong hprofile) data size;
    if negb ok then
      cxx_delete dataBuffer;;
      ReleaseByteArrayElements dataBuffer data 0;;
      NewByteArray 0
    else
      ReleaseByteArrayElements dataBuffer data 0;;
      mret dataBuffer.

Definition Java_com_gmail_etordera_jcms_JCMS_cmsCreateTransform
    (hInputProfile : jlong) (inputType : jint) (hOutputProfile : jlong)
    (outputType intent flags : jint) : M L jlong :=
  hTransform ← lcms_CreateTransform (Int.pointer_of_jlong hInputProfile) inputType
                 (Int.pointer_of_jlong hOutputProfile) outputType intent flags;
  mret (Int.jlong_of_pointer hTransform).

Definition Java_com_gmail_etordera_jcms_JCMS_cmsDeleteTransform
    (hTransform : jlong) : M L unit :=
  lcms_DeleteTransform (Int.pointer_of_jlong hTransform);;
  mret tt.

Definition Java_com_gmail_etordera_jcms_JCMS_cmsDoTransform
    (hTransform : jlong) (inputBuffer outputBuffer : jobject) (size : jint)
  : M L unit :=
  input ← GetByteArrayElements inputBuffer;
  output ← GetByteArrayElements outputBuffer;
  lcms_DoTransform (Int.pointer_of_jlong hTransform) input output size;;
  ReleaseByteArrayElements inputBuffer input 0;;
  ReleaseByteArrayElements outputBuffer output 0;;
  mret tt.

Definition Java_com_gmail_etordera_jcms_JCMS_cmsCreate_1sRGBProfile
  : M L jlong :=
  hProfile ← lcms_Create_sRGBProfile;
  mret (Int.jlong_of_pointer hProfile).

Definition Java_com_gmail_etordera_jcms_JCMS_cmsCreateGrayProfile
    (gamma : jdouble) : M L jlong :=
  GammaCurve ← lcms_BuildGamma 0 gamma;
  D50 ← lcms_D50_xyY;
  hProfile ← lcms_CreateGrayProfile D50 GammaCurve;
  lcms_FreeToneCurve GammaCurve;;
  mret (Int.jlong_of_pointer hProfile).

End Binding.

(** The runtime that constructs every array it is asked for. *)
#[export] Instance always_constructs : Allocator := λ _, true.

(** ** A scripted library

    A library whose answers are read off a script: the handle it gives
    out, whether closing succeeds, the description it holds, the answer to
    the size query and to the fill, the pixels it produces.  The state
    counts the calls made so far.  Texts are stored the way Little CMS
    stores them: clipped to the buffer and NUL-terminated, and nothing at
    all when there is no text. *)

Module Scripted.

Record Script := mkScript {
  handle : Z;
  close_ok : bool;
  description : option (list byte);
  query : bool * Z;
  fill : bool * list byte;
  pixels : list byte;
  calls : nat;
}.

Definition tick (s : Script) : Script :=
  mkScript (handle s) (close_ok s) (description s) (query s) (fill s)
           (pixels s) (S (calls s)).

Definition ptr (s : Script) : Z := handle s mod 2 ^ 64.

Definition open_file (f m : list byte) (s : Script) : Z * Script :=
  (ptr s, tick s).

Definition open_mem (d : list byte) (n : Z) (s : Script) : Z * Script :=
  (ptr s, tick s).

Definition close (h : Z) (s : Script) : bool * Script :=
  (close_ok s, tick s).

Definition get_info (h : Z) (i : cmsInfoType) (lang country : list byte)
    (bufsize : Z) (s : Script) : (list byte * Z) * Script :=
  match description s with
  | Some text =>
      if bufsize <=? 0 then ([], 0, tick s)
      else
        let n := Z.min (Z.of_nat (length text)) (bufsize - 1) in
        (take (Z.to_nat n) text ++ [x00], n + 1, tick s)
  | None => ([], 0, tick s)
  end.

Definition save (h : Z) (dest : option (list byte)) (size : Z) (s : Script)
  : (bool * Z * list byte) * Script :=
  match dest with
  | None => ((query s).1, (query s).2 mod 2 ^ 32, [], tick s)
  | Some _ => ((fill s).1, size mod 2 ^ 32, (fill s).2, tick s)
  end.

Definition create_transform (hi ti ho to i f : Z) (s : Script) : Z * Script :=
  (ptr s, tick s).

Definition delete_transform (t : Z) (s : Script) : Script := tick s.

Definition do_transform (t : Z) (input output : list byte) (size : Z)
    (s : Script) : list byte * Script :=
  (pixels s, tick s).

Definition create_srgb (s : Script) : Z * Script := (ptr s, tick s).

Definition build_gamma (ctx : Z) (gamma : jdouble) (s : Script) : Z * Script :=
  (gamma mod 2 ^ 64, tick s).

Definition d50 (s : Script) : Z := 50.

Definition create_gray (wp curve : Z) (s : Script) : Z * Script :=
  (ptr s, tick s).

Definition free_tone_curve (c : Z) (s : Script) : Script := tick s.

(** What the C types guarantee holds of the scripted library. *)
Definition ptr_is_pointer (s : Script) : Int.is_pointer (ptr s) :=
  Z.mod_pos_bound (handle s) (2 ^ 64) eq_refl.

Definition save_is_uint32 (h : Z) (d : option (list byte)) (n : Z) (s : Script)
  : Int.is_uint32 (save h d n s).1.1.2 :=
  match d with
  | None => Z.mod_pos_bound (query s).2 (2 ^ 32) eq_refl
  | Some _ => Z.mod_pos_bound n (2 ^ 32) eq_refl
  end.

End Scripted.

#[export] Instance scripted_lcms : Lcms Scripted.Script := {|
  cmsOpenProfileFromFile := Scripted.open_file;
  cmsOpenProfileFromMem := Scripted.open_mem;
  cmsCloseProfile := Scripted.close;
  cmsGetProfileInfoASCII := Scripted.get_info;
  cmsSaveProfileToMem := Scripted.save;
  cmsCreateTransform := Scripted.create_transform;
  cmsDeleteTransform := Scripted.delete_transform;
  cmsDoTransform := Scripted.do_transform;
  cmsCreate_sRGBProfile := Scripted.create_srgb;
  cmsBuildGamma := Scripted.build_gamma;
  cmsD50_xyY := Scripted.d50;
  cmsCreateGrayProfile := Scripted.create_gray;
  cmsFreeToneCurve := Scripted.free_tone_curve;
  cmsOpenProfileFromFile_pointer := λ _ _ s, Scripted.ptr_is_pointer s;
  cmsOpenProfileFromMem_pointer := λ _ _ s, Scripted.ptr_is_pointer s;
  cmsCreateTransform_pointer := λ _ _ _ _ _ _ s, Scripted.ptr_is_pointer s;
  cmsCreate_sRGBProfile_pointer := λ s, Scripted.ptr_is_pointer s;
  cmsCreateGrayProfile_pointer := λ _ _ s, Scripted.ptr_is_pointer s;
  cmsSaveProfileToMem_uint32 := Scripted.save_is_uint32;
|}.

(** ** Reading a record of events *)

Inductive ViewKind := Chars | Elements.

(** The views a program acquired, and the views it gave back, each with
    its kind and the reference it belongs to. *)
Definition acquired_by (e : Event) : list (ViewKind * jobject * address) :=
  match e with
  | EvGetStringUTFChars s v => [(Chars, s, v)]
  | EvGetByteArrayElements a v => [(Elements, a, v)]
  | _ => []
  end.

Definition released_by (e : Event) : list (ViewKind * jobject * address) :=
  match e with
  | EvReleaseStringUTFChars s v => [(Chars, s, v)]
  | EvReleaseByteArrayElements a v mode =>
      if mode =? 1 then [] else [(Elements, a, v)]
  | _ => []
  end.

Definition acquired (t : list Event) : list (ViewKind * jobject * address) :=
  flat_map acquired_by t.

Definition released (t : list Event) : list (ViewKind * jobject * address) :=
  flat_map released_by t.

(** Every acquired view is given back exactly once: the acquired views are
    pairwise distinct and the released ones are the same views, in some
    order. *)
Definition released_exactly_once (t : list Event) : Prop :=
  NoDup (acquired t) ∧ acquired t ≡ₚ released t.

Definition library_calls (t : list Event) : list LcmsCall :=
  flat_map (λ e, match e with EvLcms c => [c] | _ => [] end) t.

(** ** The binding as one interface *)

Inductive Operation :=
| OpenProfileFromFile (filename mode : jobject)
| OpenProfileFromMem (dataBuffer : jobject)
| CloseProfile (hprofile : jlong)
| GetProfileInfoASCII (hprofile : jlong)
| SaveProfileToMem (hprofile : jlong)
| CreateTransform (hInputProfile : jlong) (inputType : jint)
    (hOutputProfile : jlong) (outputType intent flags : jint)
| DeleteTransform (hTransform : jlong)
| DoTransform (hTransform : jlong) (inputBuffer outputBuffer : jobject) (size : jint)
| Create_sRGBProfile
| CreateGrayProfile (gamma : jdouble).

Inductive Result :=
| RLong (x : jlong)
| RBoolean (b : jboolean)
| RObject (r : jobject)
| RVoid.

(** The references among the arguments of a call. *)
Definition operands (op : Operation) : list jobject :=
  match op with
  | OpenProfileFromFile filename mode => [filename; mode]
  | OpenProfileFromMem dataBuffer => [dataBuffer]
  | DoTransform _ inputBuffer outputBuffer _ => [inputBuffer; outputBuffer]
  | _ => []
  end.

(** What the caller sees of a result: a number, a truth value, or the
    object behind the returned reference. *)
Inductive Seen :=
| SeenLong (x : jlong)
| SeenBoolean (b : jboolean)
| SeenObject (o : option jvalue)
| SeenVoid.

(** What a call amounts to for the caller and the library: the fault or the
    result seen, the objects behind the argument references afterwards, the
    state the library is left in and the calls it received. *)
Inductive Observation (L : Type) :=
| ObsReturns (s : Seen) (args : list (option jvalue)) (l : L) (calls : list LcmsCall)
| ObsCrashes (f : Fault) (l : L) (calls : list LcmsCall).
Arguments ObsReturns {L}.
Arguments ObsCrashes {L}.

Section Interface.

Context {L : Type} `{!Lcms L}.

Definition call (op : Operation) : M L Result :=
  match op with
  | OpenProfileFromFile filename mode =>
      x ← Java_com_gmail_etordera_jcms_JCMS_cmsOpenProfileFromFile filename mode;
      mret (RLong x)
  | OpenProfileFromMem dataBuffer =>
      x ← Java_com_gmail_etordera_jcms_JCMS_cmsOpenProfileFromMem dataBuffer;
      mret (RLong x)
  | CloseProfile hprofile =>
      b ← Java_com_gmail_etordera_jcms_JCMS_cmsCloseProfile hprofile;
      mret (RBoolean b)
  | GetProfileInfoASCII hprofile =>
      r ← Java_com_gmail_etordera_jcms_JCMS_cmsGetProfileInfoASCII hprofile;
      mret (RObject r)
  | SaveProfileToMem hprofile =>
      r ← Java_com_gmail_etordera_jcms_JCMS_cmsSaveProfileToMem hprofile;
      mret (RObject r)
  | CreateTransform hin tin hout tout intent flags =>
      x ← Java_com_gmail_etordera_jcms_JCMS_cmsCreateTransform
            hin tin hout tout intent flags;
      mret (RLong x)
  | DeleteTransform hTransform =>
      Java_com_gmail_etordera_jcms_JCMS_cmsDeleteTransform hTransform;;
      mret RVoid
  | DoTransform hTransform inputBuffer outputBuffer size =>
      Java_com_gmail_etordera_jcms_JCMS_cmsDoTransform
        hTransform inputBuffer outputBuffer size;;
      mret RVoid
  | Create_sRGBProfile =>
      x ← Java_com_gmail_etordera_jcms_JCMS_cmsCreate_1sRGBProfile;
      mret (RLong x)
  | CreateGrayProfile gamma =>
      x ← Java_com_gmail_etordera_jcms_JCMS_cmsCreateGrayProfile gamma;
      mret (RLong x)
  end.

Definition see (r : Result) (w : World L) : Seen :=
  match r with
  | RLong x => SeenLong x
  | RBoolean b => SeenBoolean b
  | RObject r => SeenObject (deref r w)
  | RVoid => SeenVoid
  end.

Definition observe (op : Operation) (o : Outcome L Result) : Observation L :=
  match o with
  | Returns r w t =>
      ObsReturns (see r w) (map (λ a, deref a w) (operands op)) (lcms w)
                 (library_calls t)
  | Crashes f w t => ObsCrashes f (lcms w) (library_calls t)
  end.

End Interface.

(** ** Reading a call *)

(** The bytes of a C string: those before its first NUL. *)
Fixpoint before_nul (bs : list byte) : list byte :=
  match bs with
  | [] => []
  | b :: rest => if Byte.eqb b x00 then [] else b :: before_nul rest
  end.

(** The references among the arguments denote what the function takes
    them for: Strings for open-from-file, byte arrays for open-from-memory
    and apply-transform. *)
Definition well_typed {L} (op : Operation) (w : World L) : bool :=
  match op with
  | OpenProfileFromFile filename mode =>
      match string_behind filename w, string_behind mode w with
      | Some _, Some _ => true
      | _, _ => false
      end
  | OpenProfileFromMem dataBuffer =>
      match array_behind dataBuffer w with Some _ => true | None => false end
  | DoTransform _ inputBuffer outputBuffer _ =>
      match array_behind inputBuffer w, array_behind outputBuffer w with
      | Some _, Some _ => true
      | _, _ => false
      end
  | _ => true
  end.

(** The functions that hand a buffer of their own to the runtime or read
    one back: get-description and save-to-memory. *)
Definition owns_buffer (op : Operation) : bool :=
  match op with
  | GetProfileInfoASCII _ | SaveProfileToMem _ => true
  | _ => false
  end.

(** The references a call may store through: the output buffer of
    apply-transform. *)
Definition written_by (op : Operation) : list jobject :=
  match op with
  | DoTransform _ _ outputBuffer _ => [outputBuffer]
  | _ => []
  end.

(** ** Sample scripts and a sample runtime *)

Module Sample.

(** "sRGB" *)
Definition text_sRGB : list byte := [x73; x52; x47; x42].
(** "p.icc" and "r" *)
Definition text_path : list byte := [x70; x2e; x69; x63; x63].
Definition text_mode : list byte := [x72].

(** A library that gives out handle 4096, reports failure on close, holds
    the description "sRGB" and saves a profile of four bytes. *)
Definition plain : Scripted.Script :=
  Scripted.mkScript 4096 false (Some text_sRGB) (true, 4)
    (true, [x01; x02; x03; x04]) [xff; xfe; xfd] 0.

Definition with_description (d : option (list byte)) (s : Scripted.Script)
  : Scripted.Script :=
  Scripted.mkScript (Scripted.handle s) (Scripted.close_ok s) d
    (Scripted.query s) (Scripted.fill s) (Scripted.pixels s) (Scripted.calls s).

Definition with_query (q : bool * Z) (s : Scripted.Script) : Scripted.Script :=
  Scripted.mkScript (Scripted.handle s) (Scripted.close_ok s)
    (Scripted.description s) q (Scripted.fill s) (Scripted.pixels s)
    (Scripted.calls s).

Definition with_fill (f : bool * list byte) (s : Scripted.Script)
  : Scripted.Script :=
  Scripted.mkScript (Scripted.handle s) (Scripted.close_ok s)
    (Scripted.description s) (Scripted.query s) f (Scripted.pixels s)
    (Scripted.calls s).

(** The profile has no description: nothing is stored in the buffer. *)
Definition no_description : Scripted.Script := with_description None plain.

(** The size query fails. *)
Definition no_size : Scripted.Script := with_query (false, 0) plain.

(** The size query succeeds and the fill fails after one byte. *)
Definition no_fill : Scripted.Script := with_fill (false, [x01]) plain.

(** The size query reports 2^31 bytes. *)
Definition huge : Scripted.Script := with_query (true, 2 ^ 31) plain.

(** References 1 and 2 are the Strings "p.icc" and "r", references 3 and 4
    are arrays of three bytes. *)
Definition objects : gmap N jvalue :=
  <[1%N := JString text_path]>
    (<[2%N := JString text_mode]>
       (<[3%N := JByteArray [x0a; x0b; x0c]]>
          (<[4%N := JByteArray [x00; x00; x00]]> ∅))).

Definition world (s : Scripted.Script) : World Scripted.Script :=
  mkWorld s objects ∅ None.

(** A runtime that cannot construct an array of four bytes or more. *)
Definition small_runtime : Allocator := λ len, len <? 4.

(** The same library in a runtime with other objects, a view that is
    alive and an exception pending. *)
Definition busy_world (s : Scripted.Script) : World Scripted.Script :=
  mkWorld s
    (<[7%N := JString text_mode]> (<[9%N := JByteArray [x2a]]> objects))
    (<[5%N := StringChars 7%N text_mode]> ∅)
    (Some NegativeArraySizeException).

End Sample.

(** * Properties *)

(** ** The casts *)

Module IntFacts.
Import Int.

Ltac crunch :=
  unfold is_pointer, is_uint32, is_jint, is_jlong, pointer_of_jlong,
    jlong_of_pointer, jsize_of_uint32, uint32_of_jsize, uint32_of_jint,
    jint_of_uint32, wrap_signed, wrap_unsigned in *;
  change (64 - 1) with 63 in *;
  change (32 - 1) with 31 in *;
  change (2 ^ 64) with 18446744073709551616 in *;
  change (2 ^ 63) with 9223372036854775808 in *;
  change (2 ^ 32) with 4294967296 in *;
  change (2 ^ 31) with 2147483648 in *.

Lemma pointer_of_jlong_is_pointer h : is_pointer (pointer_of_jlong h).
Proof. crunch. apply Z.mod_pos_bound. lia. Qed.

Lemma jlong_of_pointer_is_jlong p : is_jlong (jlong_of_pointer p).
Proof.
  crunch.
  pose proof (Z.mod_pos_bound (p + 9223372036854775808) 18446744073709551616).
  lia.
Qed.

(** A handle survives the trip to the caller and back. *)
Lemma pointer_of_jlong_of_pointer p :
  is_pointer p → pointer_of_jlong (jlong_of_pointer p) = p.
Proof.
  intros Hp. crunch.
  destruct (Z_lt_ge_dec p 9223372036854775808) as [Hlt | Hge].
  - rewrite (Z.mod_small (p + _)) by lia.
    replace (p + 9223372036854775808 - 9223372036854775808) with p by lia.
    apply Z.mod_small. lia.
  - replace (p + 9223372036854775808)
      with (p - 9223372036854775808 + 1 * 18446744073709551616) by lia.
    rewrite Z.mod_add by lia.
    rewrite (Z.mod_small (p - _)) by lia.
    replace (p - 9223372036854775808 - 9223372036854775808)
      with (p + (-1) * 18446744073709551616) by lia.
    rewrite Z.mod_add by lia.
    apply Z.mod_small. lia.
Qed.

(** The caller sees zero exactly for the null pointer. *)
Lemma jlong_of_pointer_null p :
  is_pointer p → (jlong_of_pointer p = 0 ↔ p = 0).
Proof.
  intros Hp. split.
  - intros H0. rewrite <- (pointer_of_jlong_of_pointer p Hp), H0. reflexivity.
  - intros ->. reflexivity.
Qed.

Lemma jsize_of_uint32_small n : 0 <= n < 2 ^ 31 → jsize_of_uint32 n = n.
Proof. intros Hn. crunch. rewrite Z.mod_small by lia. lia. Qed.

Lemma jsize_of_uint32_large n : 2 ^ 31 <= n < 2 ^ 32 → jsize_of_uint32 n < 0.
Proof.
  intros Hn. crunch.
  replace (n + 2147483648) with (n - 2147483648 + 1 * 4294967296) by lia.
  rewrite Z.mod_add by lia. rewrite Z.mod_small by lia. lia.
Qed.

Lemma uint32_of_jsize_small n : 0 <= n < 2 ^ 32 → uint32_of_jsize n = n.
Proof. intros Hn. crunch. apply Z.mod_small. lia. Qed.

(** A jint that is not negative keeps its value as a cmsUInt32Number. *)
Lemma uint32_of_jint_nonnegative x : 0 <= x < 2 ^ 31 → uint32_of_jint x = x.
Proof. intros Hx. crunch. apply Z.mod_small. lia. Qed.

(** A negative jint arrives 2^32 higher. *)
Lemma uint32_of_jint_negative x :
  - 2 ^ 31 <= x < 0 → uint32_of_jint x = x + 2 ^ 32.
Proof.
  intros Hx. crunch.
  replace x with (x + 4294967296 + (-1) * 4294967296) at 1 by lia.
  rewrite Z.mod_add by lia. apply Z.mod_small. lia.
Qed.

(** The conversion keeps the 32 bits: the jint can be read back. *)
Lemma jint_of_uint32_of_jint x : is_jint x → jint_of_uint32 (uint32_of_jint x) = x.
Proof.
  intros Hx. destruct (Z_lt_ge_dec x 0) as [Hneg | Hpos].
  - rewrite uint32_of_jint_negative by (crunch; lia). crunch.
    replace (x + 4294967296 + 2147483648)
      with (x + 2147483648 + 1 * 4294967296) by lia.
    rewrite Z.mod_add by lia. rewrite Z.mod_small by lia. lia.
  - rewrite uint32_of_jint_nonnegative by (crunch; lia). crunch.
    rewrite Z.mod_small by lia. lia.
Qed.

End IntFacts.

(** ** Fresh addresses and references *)

Lemma fresh_key_not_null {V} (m : gmap N V) : fresh_key m ≠ 0%N.
Proof.
  unfold fresh_key. intros H0.
  pose proof (is_fresh ({[0%N]} ∪ dom m)) as Hf.
  rewrite H0 in Hf. set_solver.
Qed.

Lemma fresh_key_unused {V} (m : gmap N V) : m !! fresh_key m = None.
Proof.
  unfold fresh_key.
  pose proof (is_fresh ({[0%N]} ∪ dom m)) as Hf.
  apply not_elem_of_dom. set_solver.
Qed.

Lemma fresh_key_eqb_null {V} (m : gmap N V) : (fresh_key m =? 0)%N = false.
Proof. apply N.eqb_neq, fresh_key_not_null. Qed.

Lemma fresh_key_differs {V} (m : gmap N V) k x : fresh_key (<[k := x]> m) ≠ k.
Proof.
  intros Heq. pose proof (fresh_key_unused (<[k := x]> m)) as Hf.
  rewrite Heq, lookup_insert_eq in Hf. discriminate.
Qed.

(** ** References *)

Lemma deref_Some {L} (r : jobject) (w : World L) x :
  deref r w = Some x → (r =? 0)%N = false ∧ heap w !! r = Some x.
Proof.
  unfold deref, NULL. destruct (r =? 0)%N; [discriminate | auto].
Qed.

Lemma deref_heap {L} (r : jobject) (w : World L) x :
  r ≠ NULL → heap w !! r = Some x → deref r w = Some x.
Proof.
  unfold deref, NULL. intros Hr Hx.
  apply N.eqb_neq in Hr. rewrite Hr. exact Hx.
Qed.

Lemma deref_fresh {L} (w : World L) : deref (fresh_key (heap w)) w = None.
Proof.
  unfold deref, NULL. rewrite fresh_key_eqb_null. apply fresh_key_unused.
Qed.

(** ** Running the binding *)

Ltac unfold_binding :=
  unfold Java_com_gmail_etordera_jcms_JCMS_cmsOpenProfileFromFile,
    Java_com_gmail_etordera_jcms_JCMS_cmsOpenProfileFromMem,
    Java_com_gmail_etordera_jcms_JCMS_cmsCloseProfile,
    Java_com_gmail_etordera_jcms_JCMS_cmsGetProfileInfoASCII,
    Java_com_gmail_etordera_jcms_JCMS_cmsSaveProfileToMem,
    Java_com_gmail_etordera_jcms_JCMS_cmsCreateTransform,
    Java_com_gmail_etordera_jcms_JCMS_cmsDeleteTransform,
    Java_com_gmail_etordera_jcms_JCMS_cmsDoTransform,
    Java_com_gmail_etordera_jcms_JCMS_cmsCreate_1sRGBProfile,
    Java_com_gmail_etordera_jcms_JCMS_cmsCreateGrayProfile;
  unfold mbind, M_mbind, M_bind, mret, M_mret, M_ret.

Ltac unfold_jni :=
  unfold GetStringUTFChars, ReleaseStringUTFChars, GetByteArrayElements,
    GetArrayLength, ReleaseByteArrayElements, NewByteArray, NewStringUTF,
    cxx_delete, lcms_OpenProfileFromFile, lcms_OpenProfileFromMem,
    lcms_CloseProfile, lcms_GetProfileInfoASCII, lcms_SaveProfileToMem,
    lcms_CreateTransform, lcms_DeleteTransform, lcms_DoTransform,
    lcms_Create_sRGBProfile, lcms_BuildGamma, lcms_D50_xyY,
    lcms_CreateGrayProfile, lcms_FreeToneCurve, chars_at, elems_at, deref,
    NULL, constructs, always_constructs.

Ltac fresh_side :=
  first [ apply fresh_key_differs
        | apply not_eq_sym, fresh_key_differs
        | apply fresh_key_not_null
        | assumption ].

Ltac map_step :=
  first
    [ rewrite lookup_insert_eq
    | rewrite lookup_insert_ne by fresh_side
    | rewrite lookup_delete_ne by fresh_side
    | rewrite N.eqb_refl
    | rewrite fresh_key_eqb_null ].

Ltac exec := unfold_binding; unfold_jni; simpl; repeat (map_step; simpl).

Ltac same_world := unfold set_views, set_heap, set_lcms, set_pending; simpl.

Ltac use_deref H :=
  let Hn := fresh "Hn" in
  apply deref_Some in H as [Hn H].

Section RunLemmas.

Context {L : Type} `{!Lcms L}.

Lemma view_restored (vs : gmap N View) x :
  delete (fresh_key vs) (<[fresh_key vs := x]> vs) = vs.
Proof. apply delete_insert_id, fresh_key_unused. Qed.

Lemma two_views_restored (vs : gmap N View) x y :
  delete (fresh_key (<[fresh_key vs := x]> vs))
    (delete (fresh_key vs)
       (<[fresh_key (<[fresh_key vs := x]> vs) := y]> (<[fresh_key vs := x]> vs)))
  = vs.
Proof.
  rewrite delete_insert_ne by fresh_side.
  rewrite view_restored.
  apply delete_insert_id.
  pose proof (fresh_key_unused (<[fresh_key vs := x]> vs)) as Hf.
  rewrite lookup_insert_ne in Hf by fresh_side. exact Hf.
Qed.

Lemma run_OpenProfileFromFile w filename mode f m :
  deref filename w = Some (JString f) →
  deref mode w = Some (JString m) →
  ∃ v1 v2,
    v1 ≠ v2 ∧
    Java_com_gmail_etordera_jcms_JCMS_cmsOpenProfileFromFile filename mode w
    = Returns (Int.jlong_of_pointer (cmsOpenProfileFromFile f m (lcms w)).1)
              (set_lcms (cmsOpenProfileFromFile f m (lcms w)).2 w)
              [EvGetStringUTFChars filename v1;
               EvGetStringUTFChars mode v2;
               EvLcms (CallOpenProfileFromFile f m
                         (cmsOpenProfileFromFile f m (lcms w)).1);
               EvReleaseStringUTFChars filename v1;
               EvReleaseStringUTFChars mode v2].
Proof.
  intros Hf Hm. use_deref Hf. use_deref Hm.
  exists (fresh_key (views w)),
         (fresh_key (<[fresh_key (views w) := StringChars filename f]> (views w))).
  split; [fresh_side |].
  exec. rewrite Hn, Hf. exec. rewrite Hn0, Hm. exec.
  destruct (cmsOpenProfileFromFile f m (lcms w)) as [h l]. exec.
  same_world. do 2 f_equal. apply two_views_restored.
Qed.

Lemma run_OpenProfileFromMem w dataBuffer bs :
  deref dataBuffer w = Some (JByteArray bs) →
  let n := Z.of_nat (length bs) in
  let size := Int.uint32_of_jsize n in
  ∃ v,
    Java_com_gmail_etordera_jcms_JCMS_cmsOpenProfileFromMem dataBuffer w
    = Returns (Int.jlong_of_pointer (cmsOpenProfileFromMem bs size (lcms w)).1)
              (set_lcms (cmsOpenProfileFromMem bs size (lcms w)).2 w)
              [EvGetByteArrayElements dataBuffer v;
               EvGetArrayLength dataBuffer n;
               EvLcms (CallOpenProfileFromMem bs size
                         (cmsOpenProfileFromMem bs size (lcms w)).1);
               EvReleaseByteArrayElements dataBuffer v 0].
Proof.
  intros Hd n size. use_deref Hd. exists (fresh_key (views w)).
  subst n size. exec. repeat (rewrite ?Hn, Hd; exec).
  destruct (cmsOpenProfileFromMem bs _ (lcms w)) as [h l]. exec.
  repeat (rewrite ?Hn, Hd; exec).
  same_world. do 2 f_equal.
  - apply insert_id, Hd.
  - apply view_restored.
Qed.

Lemma run_CloseProfile w hprofile :
  let p := Int.pointer_of_jlong hprofile in
  Java_com_gmail_etordera_jcms_JCMS_cmsCloseProfile hprofile w
  = Returns true (set_lcms (cmsCloseProfile p (lcms w)).2 w)
            [EvLcms (CallCloseProfile p (cmsCloseProfile p (lcms w)).1)].
Proof.
  intros p. subst p. exec.
  destruct (cmsCloseProfile _ (lcms w)) as [b l]. reflexivity.
Qed.

Lemma run_CreateTransform w hin tin hout tout intent flags :
  let pin := Int.pointer_of_jlong hin in
  let pout := Int.pointer_of_jlong hout in
  let ti := Int.uint32_of_jint tin in
  let to := Int.uint32_of_jint tout in
  let i := Int.uint32_of_jint intent in
  let f := Int.uint32_of_jint flags in
  let r := cmsCreateTransform pin ti pout to i f (lcms w) in
  Java_com_gmail_etordera_jcms_JCMS_cmsCreateTransform hin tin hout tout intent flags w
  = Returns (Int.jlong_of_pointer r.1) (set_lcms r.2 w)
            [EvLcms (CallCreateTransform pin ti pout to i f r.1)].
Proof.
  intros pin pout ti to i f r. subst pin pout ti to i f r. exec.
  destruct (cmsCreateTransform _ _ _ _ _ _ (lcms w)) as [t l].
  reflexivity.
Qed.

Lemma run_DeleteTransform w hTransform :
  let t := Int.pointer_of_jlong hTransform in
  Java_com_gmail_etordera_jcms_JCMS_cmsDeleteTransform hTransform w
  = Returns tt (set_lcms (cmsDeleteTransform t (lcms w)) w)
            [EvLcms (CallDeleteTransform t)].
Proof. reflexivity. Qed.

Lemma run_Create_sRGBProfile w :
  Java_com_gmail_etordera_jcms_JCMS_cmsCreate_1sRGBProfile w
  = Returns (Int.jlong_of_pointer (cmsCreate_sRGBProfile (lcms w)).1)
            (set_lcms (cmsCreate_sRGBProfile (lcms w)).2 w)
            [EvLcms (CallCreate_sRGBProfile (cmsCreate_sRGBProfile (lcms w)).1)].
Proof.
  exec. destruct (cmsCreate_sRGBProfile (lcms w)) as [h l]. reflexivity.
Qed.

Lemma run_CreateGrayProfile w gamma :
  let curve := cmsBuildGamma 0 gamma (lcms w) in
  let d50 := cmsD50_xyY curve.2 in
  let gray := cmsCreateGrayProfile d50 curve.1 curve.2 in
  Java_com_gmail_etordera_jcms_JCMS_cmsCreateGrayProfile gamma w
  = Returns (Int.jlong_of_pointer gray.1)
            (set_lcms (cmsFreeToneCurve curve.1 gray.2) w)
            [EvLcms (CallBuildGamma 0 gamma curve.1);
             EvLcms (CallD50_xyY d50);
             EvLcms (CallCreateGrayProfile d50 curve.1 gray.1);
             EvLcms (CallFreeToneCurve curve.1)].
Proof.
  intros curve d50 gray. subst curve d50 gray. exec.
  destruct (cmsBuildGamma 0 gamma (lcms w)) as [c l1]. simpl.
  destruct (cmsCreateGrayProfile (cmsD50_xyY l1) c l1) as [h l2].
  reflexivity.
Qed.

Lemma run_DoTransform w hTransform inputBuffer outputBuffer size ibs obs :
  deref inputBuffer w = Some (JByteArray ibs) →
  deref outputBuffer w = Some (JByteArray obs) →
  let t := Int.pointer_of_jlong hTransform in
  let n := Int.uint32_of_jint size in
  let r := cmsDoTransform t ibs obs n (lcms w) in
  ∃ v1 v2,
    v1 ≠ v2 ∧
    Java_com_gmail_etordera_jcms_JCMS_cmsDoTransform
      hTransform inputBuffer outputBuffer size w
    = Returns tt
        (set_heap (<[outputBuffer := JByteArray (store_elems r.1 obs)]> (heap w))
                  (set_lcms r.2 w))
        [EvGetByteArrayElements inputBuffer v1;
         EvGetByteArrayElements outputBuffer v2;
         EvLcms (CallDoTransform t ibs obs n);
         EvReleaseByteArrayElements inputBuffer v1 0;
         EvReleaseByteArrayElements outputBuffer v2 0].
Proof.
  intros Hi Ho t n r. subst t n r.
  exists (fresh_key (views w)),
         (fresh_key (<[fresh_key (views w) := ByteElements inputBuffer ibs]> (views w))).
  split; [fresh_side |].
  destruct (decide (inputBuffer = outputBuffer)) as [Heq | Hne].
  - subst outputBuffer. assert (obs = ibs) as -> by congruence.
    use_deref Hi.
    exec. repeat (first [rewrite Hn | rewrite Hi]; exec).
    destruct (cmsDoTransform _ ibs ibs _ (lcms w)) as [stored l]. exec.
    repeat (first [rewrite Hn | rewrite Hi]; exec).
    same_world. do 2 f_equal.
    + apply insert_insert_eq.
    + rewrite insert_insert_eq. apply two_views_restored.
  - use_deref Hi. use_deref Ho.
    exec. repeat (first [rewrite Hn | rewrite Hi | rewrite Hn0 | rewrite Ho]; exec).
    destruct (cmsDoTransform _ ibs obs _ (lcms w)) as [stored l]. exec.
    repeat (first [rewrite Hn | rewrite Hi | rewrite Hn0 | rewrite Ho]; exec).
    same_world. do 2 f_equal.
    + f_equal. apply insert_id, Hi.
    + rewrite insert_insert_eq. apply two_views_restored.
Qed.

End RunLemmas.

(** ** Native memory *)

Lemma length_store_chars stored buf :
  length (store_chars stored buf) = length buf.
Proof.
  unfold store_chars.
  rewrite length_take, length_app, length_map, length_drop. lia.
Qed.

Lemma length_store_elems stored buf :
  length (store_elems stored buf) = length buf.
Proof.
  unfold store_elems.
  rewrite length_take, length_app, length_drop. lia.
Qed.

Lemma length_uninitialised n : length (uninitialised n) = n.
Proof. apply length_replicate. Qed.

(** A C string read out of an array is shorter than the array: its NUL
    lies inside. *)
Lemma read_cstring_shorter buf s :
  read_cstring buf = inr s → (length s < length buf)%nat.
Proof.
  revert s. induction buf as [| c buf IH]; intros s; simpl.
  - discriminate.
  - destruct c as [b |]; [| discriminate].
    destruct (Byte.eqb b x00).
    + intros [= <-]. simpl. lia.
    + destruct (read_cstring buf) as [f | s']; [discriminate |].
      intros [= <-]. simpl. specialize (IH s' eq_refl). lia.
Qed.

(** Nothing stored into an array without initialiser: the first byte read
    is indeterminate. *)
Lemma read_cstring_nothing_stored n :
  read_cstring (store_chars [] (uninitialised (S n))) = inl IndeterminateRead.
Proof. reflexivity. Qed.

Section RunsMemory.

Context {L : Type} `{!Lcms L}.

Lemma run_GetProfileInfoASCII w hprofile :
  let p := Int.pointer_of_jlong hprofile in
  let r := cmsGetProfileInfoASCII p cmsInfoDescription lit_en lit_EN 512 (lcms w) in
  let call := EvLcms (CallGetProfileInfoASCII p cmsInfoDescription lit_en lit_EN 512) in
  Java_com_gmail_etordera_jcms_JCMS_cmsGetProfileInfoASCII hprofile w
  = match read_cstring (store_chars r.1.1 (uninitialised 512)) with
    | inr s =>
        Returns (fresh_key (heap w))
                (set_heap (<[fresh_key (heap w) := JString s]> (heap w))
                          (set_lcms r.2 w))
                [call; EvNewStringUTF (fresh_key (heap w))]
    | inl f => Crashes f (set_lcms r.2 w) [call]
    end.
Proof.
  intros p r call. subst p r call. exec.
  destruct (cmsGetProfileInfoASCII _ cmsInfoDescription lit_en lit_EN 512 (lcms w))
    as [[stored n] l]. simpl.
  destruct (read_cstring (store_chars stored (uninitialised 512))); reflexivity.
Qed.

Lemma run_SaveProfileToMem_query_fails w hprofile :
  let p := Int.pointer_of_jlong hprofile in
  let q := cmsSaveProfileToMem p None 0 (lcms w) in
  q.1.1.1 = false →
  Java_com_gmail_etordera_jcms_JCMS_cmsSaveProfileToMem hprofile w
  = Returns (fresh_key (heap w))
            (set_heap (<[fresh_key (heap w) := JByteArray []]> (heap w))
                      (set_lcms q.2 w))
            [EvLcms (CallSaveProfileToMem p None 0 false q.1.1.2);
             EvNewByteArray 0 (fresh_key (heap w))].
Proof.
  intros p q. subst p q. exec.
  destruct (cmsSaveProfileToMem _ None 0 (lcms w)) as [[[ok n] stored] l].
  simpl. intros ->. reflexivity.
Qed.

Lemma run_SaveProfileToMem_too_large w hprofile :
  let p := Int.pointer_of_jlong hprofile in
  let q := cmsSaveProfileToMem p None 0 (lcms w) in
  q.1.1.1 = true →
  2 ^ 31 <= q.1.1.2 →
  Java_com_gmail_etordera_jcms_JCMS_cmsSaveProfileToMem hprofile w
  = Crashes NullReference
            (set_pending (Some NegativeArraySizeException) (set_lcms q.2 w))
            [EvLcms (CallSaveProfileToMem p None 0 true q.1.1.2);
             EvNewByteArray (Int.jsize_of_uint32 q.1.1.2) NULL].
Proof.
  intros p q. subst p q.
  pose proof (cmsSaveProfileToMem_uint32 (Int.pointer_of_jlong hprofile) None 0 (lcms w)) as Hu.
  exec.
  destruct (cmsSaveProfileToMem _ None 0 (lcms w)) as [[[ok n] stored] l].
  simpl in *. intros -> Hn. simpl.
  assert ((Int.jsize_of_uint32 n <? 0) = true) as ->.
  { apply Z.ltb_lt, IntFacts.jsize_of_uint32_large. unfold Int.is_uint32 in Hu. lia. }
  reflexivity.
Qed.

Lemma run_SaveProfileToMem_fill w hprofile :
  let p := Int.pointer_of_jlong hprofile in
  let q := cmsSaveProfileToMem p None 0 (lcms w) in
  let n := q.1.1.2 in
  let zeros := replicate (Z.to_nat n) x00 in
  let f := cmsSaveProfileToMem p (Some zeros) n q.2 in
  let r := fresh_key (heap w) in
  let v := fresh_key (views w) in
  let filled := store_elems f.1.2 zeros in
  let before :=
    [EvLcms (CallSaveProfileToMem p None 0 true n);
     EvNewByteArray n r;
     EvGetByteArrayElements r v;
     EvLcms (CallSaveProfileToMem p (Some zeros) n f.1.1.1 f.1.1.2)] in
  q.1.1.1 = true →
  n < 2 ^ 31 →
  Java_com_gmail_etordera_jcms_JCMS_cmsSaveProfileToMem hprofile w
  = if f.1.1.1
    then Returns r
           (set_heap (<[r := JByteArray filled]> (heap w)) (set_lcms f.2 w))
           (before ++ [EvReleaseByteArrayElements r v 0])
    else Crashes InvalidDelete
           (set_views (<[v := ByteElements r filled]> (views w))
              (set_heap (<[r := JByteArray zeros]> (heap w)) (set_lcms f.2 w)))
           (before ++ [EvDelete r]).
Proof.
  intros p q n zeros f r v filled before.
  subst p q n zeros f r v filled before.
  pose proof (cmsSaveProfileToMem_uint32 (Int.pointer_of_jlong hprofile) None 0 (lcms w)) as Hu.
  exec.
  destruct (cmsSaveProfileToMem _ None 0 (lcms w)) as [[[ok n] stored] l].
  simpl in *. intros -> Hn. simpl.
  unfold Int.is_uint32 in Hu.
  rewrite IntFacts.jsize_of_uint32_small by lia.
  assert ((n <? 0) = false) as -> by (apply Z.ltb_ge; lia).
  exec.
  destruct (cmsSaveProfileToMem _ (Some _) n l) as [[[ok2 n2] stored2] l2].
  exec. destruct ok2; exec.
  - same_world. do 2 f_equal.
    + apply insert_insert_eq.
    + rewrite insert_insert_eq. apply view_restored.
  - same_world. do 2 f_equal. apply insert_insert_eq.
Qed.

End RunsMemory.


(** ** The two phases of saving *)

Section SaveProtocol.

Context {L : Type} `{!Lcms L} `{!Allocator}.

Lemma run_SaveProfileToMem_constructed w hprofile :
  let p := Int.pointer_of_jlong hprofile in
  let q := cmsSaveProfileToMem p None 0 (lcms w) in
  let n := q.1.1.2 in
  let zeros := replicate (Z.to_nat n) x00 in
  let f := cmsSaveProfileToMem p (Some zeros) n q.2 in
  let r := fresh_key (heap w) in
  let v := fresh_key (views w) in
  let filled := store_elems f.1.2 zeros in
  let before :=
    [EvLcms (CallSaveProfileToMem p None 0 true n);
     EvNewByteArray n r;
     EvGetByteArrayElements r v;
     EvLcms (CallSaveProfileToMem p (Some zeros) n f.1.1.1 f.1.1.2)] in
  q.1.1.1 = true →
  n < 2 ^ 31 →
  constructs n = true →
  Java_com_gmail_etordera_jcms_JCMS_cmsSaveProfileToMem hprofile w
  = if f.1.1.1
    then Returns r
           (set_heap (<[r := JByteArray filled]> (heap w)) (set_lcms f.2 w))
           (before ++ [EvReleaseByteArrayElements r v 0])
    else Crashes InvalidDelete
           (set_views (<[v := ByteElements r filled]> (views w))
              (set_heap (<[r := JByteArray zeros]> (heap w)) (set_lcms f.2 w)))
           (before ++ [EvDelete r]).
Proof.
  intros p q n zeros f r v filled before.
  subst p q n zeros f r v filled before.
  pose proof (cmsSaveProfileToMem_uint32 (Int.pointer_of_jlong hprofile) None 0 (lcms w)) as Hu.
  unfold_binding; unfold_jni; simpl.
  destruct (cmsSaveProfileToMem _ None 0 (lcms w)) as [[[ok n] stored] l].
  simpl in *. intros -> Hn Hc. simpl.
  unfold Int.is_uint32 in Hu.
  rewrite IntFacts.jsize_of_uint32_small by lia.
  assert ((n <? 0) = false) as -> by (apply Z.ltb_ge; lia).
  unfold constructs in Hc. rewrite Hc.
  simpl. repeat (map_step; simpl).
  destruct (cmsSaveProfileToMem _ (Some _) n l) as [[[ok2 n2] stored2] l2].
  simpl. repeat (map_step; simpl). destruct ok2; simpl; repeat (map_step; simpl).
  - same_world. do 2 f_equal.
    + apply insert_insert_eq.
    + rewrite insert_insert_eq. apply view_restored.
  - same_world. do 2 f_equal. apply insert_insert_eq.
Qed.

(** Where the runtime cannot construct the array, the null reference that
    NewByteArray yields is passed on to GetByteArrayElements. *)
Lemma run_SaveProfileToMem_not_constructed w hprofile :
  let p := Int.pointer_of_jlong hprofile in
  let q := cmsSaveProfileToMem p None 0 (lcms w) in
  let n := q.1.1.2 in
  q.1.1.1 = true →
  n < 2 ^ 31 →
  constructs n = false →
  Java_com_gmail_etordera_jcms_JCMS_cmsSaveProfileToMem hprofile w
  = Crashes NullReference
            (set_pending (Some OutOfMemoryError) (set_lcms q.2 w))
            [EvLcms (CallSaveProfileToMem p None 0 true n);
             EvNewByteArray n NULL].
Proof.
  intros p q n. subst p q n.
  pose proof (cmsSaveProfileToMem_uint32 (Int.pointer_of_jlong hprofile) None 0 (lcms w)) as Hu.
  unfold_binding; unfold_jni; simpl.
  destruct (cmsSaveProfileToMem _ None 0 (lcms w)) as [[[ok n] stored] l].
  simpl in *. intros -> Hn Hc. simpl.
  unfold Int.is_uint32 in Hu.
  rewrite IntFacts.jsize_of_uint32_small by lia.
  assert ((n <? 0) = false) as -> by (apply Z.ltb_ge; lia).
  unfold constructs in Hc. rewrite Hc. reflexivity.
Qed.

(** C4, as amended. In any runtime, when the size query succeeds with a
    size [n] below 2^31 and the runtime constructs an array of [n] bytes,
    the operation calls the library with a null destination, then creates
    a byte array of exactly [n] bytes, then calls the library a second
    time with the [n] bytes of that array as destination and [n] as size;
    when that second call succeeds it releases the view and returns the
    array, which then holds what the library stored and still has exactly
    [n] bytes. *)
Theorem save_two_phase_protocol (w : World L) (hprofile : jlong) :
  let p := Int.pointer_of_jlong hprofile in
  let q := cmsSaveProfileToMem p None 0 (lcms w) in
  let n := q.1.1.2 in
  let zeros := replicate (Z.to_nat n) x00 in
  let f := cmsSaveProfileToMem p (Some zeros) n q.2 in
  let o := Java_com_gmail_etordera_jcms_JCMS_cmsSaveProfileToMem hprofile w in
  q.1.1.1 = true →
  n < 2 ^ 31 →
  constructs n = true →
  ∃ r v,
    let two_phases :=
      [EvLcms (CallSaveProfileToMem p None 0 true n);
       EvNewByteArray n r;
       EvGetByteArrayElements r v;
       EvLcms (CallSaveProfileToMem p (Some zeros) n f.1.1.1 f.1.1.2)] in
    r ≠ NULL
    ∧ deref r w = None
    ∧ Z.of_nat (length zeros) = n
    ∧ take 4 (events o) = two_phases
    ∧ (f.1.1.1 = true →
       ∃ w',
         o = Returns r w' (two_phases ++ [EvReleaseByteArrayElements r v 0])
         ∧ deref r w' = Some (JByteArray (store_elems f.1.2 zeros))
         ∧ Z.of_nat (length (store_elems f.1.2 zeros)) = n).
Proof.
  intros p q n zeros f o Hq Hn Hc.
  pose proof (cmsSaveProfileToMem_uint32 p None 0 (lcms w)) as Hu.
  fold q in Hu. fold n in Hu. unfold Int.is_uint32 in Hu.
  assert (Z.of_nat (length zeros) = n) as Hlen.
  { unfold zeros. rewrite length_replicate. lia. }
  exists (fresh_key (heap w)), (fresh_key (views w)).
  pose proof (run_SaveProfileToMem_constructed w hprofile Hq Hn Hc) as Hrun.
  fold p q n zeros f o in Hrun.
  split; [apply fresh_key_not_null |].
  split; [apply deref_fresh |].
  split; [exact Hlen |].
  split.
  - rewrite Hrun. destruct (f.1.1.1); reflexivity.
  - intros Hok. rewrite Hrun, Hok. eexists. split; [reflexivity |].
    split.
    + apply deref_heap; [apply fresh_key_not_null |].
      simpl. apply lookup_insert_eq.
    + rewrite length_store_elems. exact Hlen.
Qed.

End SaveProtocol.

(** ** Calls on references that are not what the binding expects *)

Section RunsFaults.

Context {L : Type} `{!Lcms L}.

Lemma string_behind_Some (r : jobject) (w : World L) s :
  string_behind r w = Some s → deref r w = Some (JString s).
Proof.
  unfold string_behind. destruct (deref r w) as [[] |]; congruence.
Qed.

Lemma array_behind_Some (r : jobject) (w : World L) bs :
  array_behind r w = Some bs → deref r w = Some (JByteArray bs).
Proof.
  unfold array_behind. destruct (deref r w) as [[] |]; congruence.
Qed.

Lemma run_OpenProfileFromFile_no_filename w filename mode :
  string_behind filename w = None →
  Java_com_gmail_etordera_jcms_JCMS_cmsOpenProfileFromFile filename mode w
  = Crashes (reference_fault filename) w [].
Proof.
  unfold string_behind. intros Hf.
  unfold_binding. unfold GetStringUTFChars at 1.
  destruct (deref filename w) as [[] |]; [discriminate | reflexivity ..].
Qed.

Lemma run_OpenProfileFromFile_no_mode w filename mode f :
  string_behind filename w = Some f →
  string_behind mode w = None →
  ∃ w',
    Java_com_gmail_etordera_jcms_JCMS_cmsOpenProfileFromFile filename mode w
    = Crashes (reference_fault mode) w'
              [EvGetStringUTFChars filename (fresh_key (views w))]
    ∧ lcms w' = lcms w.
Proof.
  intros Hf%string_behind_Some Hm. unfold string_behind in Hm.
  unfold_binding. unfold GetStringUTFChars. rewrite Hf.
  change (deref mode (set_views ?v w)) with (deref mode w).
  eexists.
  destruct (deref mode w) as [[] |]; [discriminate | split; reflexivity ..].
Qed.

Lemma run_OpenProfileFromMem_no_array w dataBuffer :
  array_behind dataBuffer w = None →
  Java_com_gmail_etordera_jcms_JCMS_cmsOpenProfileFromMem dataBuffer w
  = Crashes (reference_fault dataBuffer) w [].
Proof.
  unfold array_behind. intros Hd.
  unfold_binding. unfold GetByteArrayElements at 1.
  destruct (deref dataBuffer w) as [[] |]; [reflexivity | discriminate | reflexivity].
Qed.

Lemma run_DoTransform_no_input w hTransform inputBuffer outputBuffer size :
  array_behind inputBuffer w = None →
  Java_com_gmail_etordera_jcms_JCMS_cmsDoTransform
    hTransform inputBuffer outputBuffer size w
  = Crashes (reference_fault inputBuffer) w [].
Proof.
  unfold array_behind. intros Hd.
  unfold_binding. unfold GetByteArrayElements at 1.
  destruct (deref inputBuffer w) as [[] |]; [reflexivity | discriminate | reflexivity].
Qed.

Lemma run_DoTransform_no_output w hTransform inputBuffer outputBuffer size ibs :
  array_behind inputBuffer w = Some ibs →
  array_behind outputBuffer w = None →
  ∃ w',
    Java_com_gmail_etordera_jcms_JCMS_cmsDoTransform
      hTransform inputBuffer outputBuffer size w
    = Crashes (reference_fault outputBuffer) w'
              [EvGetByteArrayElements inputBuffer (fresh_key (views w))]
    ∧ lcms w' = lcms w.
Proof.
  intros Hi%array_behind_Some Ho. unfold array_behind in Ho.
  unfold_binding. unfold GetByteArrayElements. rewrite Hi.
  change (deref outputBuffer (set_views ?v w)) with (deref outputBuffer w).
  eexists.
  destruct (deref outputBuffer w) as [[] |];
    [split; reflexivity | discriminate | split; reflexivity].
Qed.

End RunsFaults.

(** ** Closing a profile *)

Section Claims.

Context {L : Type} `{!Lcms L}.

(** C2. For every handle value, the close-profile operation returns true:
    the value the library returns from cmsCloseProfile is recorded in the
    call and dropped, whatever it is; nothing else of the runtime
    changes. *)
Theorem close_profile_reports_true (w : World L) (hprofile : jlong) :
  let p := Int.pointer_of_jlong hprofile in
  let r := cmsCloseProfile p (lcms w) in
  Java_com_gmail_etordera_jcms_JCMS_cmsCloseProfile hprofile w
  = Returns true (set_lcms r.2 w) [EvLcms (CallCloseProfile p r.1)].
Proof.
  intros p r. subst p r. exec.
  destruct (cmsCloseProfile _ (lcms w)) as [b l]. destruct b; reflexivity.
Qed.

(** ** Saving a profile to memory *)


(** ** Creating a gray profile *)

(** C6. For every gamma value the create-gray-profile operation calls, in
    this order, cmsBuildGamma with that gamma, cmsD50_xyY,
    cmsCreateGrayProfile with the D50 white point and the curve just built,
    and cmsFreeToneCurve on that curve; it returns the profile handle as a
    jlong and nothing else: no object is created and the curve appears in
    no result. *)
Theorem create_gray_profile_builds_and_frees_curve (w : World L) (gamma : jdouble) :
  let curve := cmsBuildGamma 0 gamma (lcms w) in
  let d50 := cmsD50_xyY curve.2 in
  let gray := cmsCreateGrayProfile d50 curve.1 curve.2 in
  Java_com_gmail_etordera_jcms_JCMS_cmsCreateGrayProfile gamma w
  = Returns (Int.jlong_of_pointer gray.1)
            (set_lcms (cmsFreeToneCurve curve.1 gray.2) w)
            [EvLcms (CallBuildGamma 0 gamma curve.1);
             EvLcms (CallD50_xyY d50);
             EvLcms (CallCreateGrayProfile d50 curve.1 gray.1);
             EvLcms (CallFreeToneCurve curve.1)]
  ∧ Int.pointer_of_jlong (Int.jlong_of_pointer gray.1) = gray.1.
Proof.
  intros curve d50 gray. split.
  - apply run_CreateGrayProfile.
  - apply IntFacts.pointer_of_jlong_of_pointer, cmsCreateGrayProfile_pointer.
Qed.

(** ** Constructing profiles and transforms *)


(** C9. For every byte array passed to open-profile-from-memory, the
    library is called once, with the bytes of the whole array and, as
    size, the length the runtime reports for that array; the binding takes
    no length from its caller. *)
Theorem open_from_memory_passes_whole_buffer
    (w : World L) (dataBuffer : jobject) (bs : list byte) :
  deref dataBuffer w = Some (JByteArray bs) →
  Int.is_jint (Z.of_nat (length bs)) →
  let n := Z.of_nat (length bs) in
  ∃ v h w',
    Java_com_gmail_etordera_jcms_JCMS_cmsOpenProfileFromMem dataBuffer w
    = Returns (Int.jlong_of_pointer h) w'
              [EvGetByteArrayElements dataBuffer v;
               EvGetArrayLength dataBuffer n;
               EvLcms (CallOpenProfileFromMem bs n h);
               EvReleaseByteArrayElements dataBuffer v 0]
    ∧ (h, lcms w') = cmsOpenProfileFromMem bs n (lcms w).
Proof.
  intros Hd Hlen n.
  destruct (run_OpenProfileFromMem w dataBuffer bs Hd) as (v & Hrun).
  fold n in Hrun.
  assert (Int.uint32_of_jsize n = n) as Hsize.
  { apply IntFacts.uint32_of_jsize_small.
    unfold Int.is_jint in Hlen. fold n in Hlen.
    assert (2 ^ 31 < 2 ^ 32) by reflexivity. lia. }
  rewrite Hsize in Hrun.
  exists v, (cmsOpenProfileFromMem bs n (lcms w)).1,
    (set_lcms (cmsOpenProfileFromMem bs n (lcms w)).2 w).
  split; [exact Hrun |].
  simpl. destruct (cmsOpenProfileFromMem bs n (lcms w)); reflexivity.
Qed.

(** ** Reading the description *)

(** The library is always asked for the description in "en"/"EN" with a
    buffer size of 512, and a string that is returned has at most 511
    bytes. *)
Lemma description_query_and_bound (w : World L) (hprofile : jlong) :
  let o := Java_com_gmail_etordera_jcms_JCMS_cmsGetProfileInfoASCII hprofile w in
  take 1 (events o)
  = [EvLcms (CallGetProfileInfoASCII (Int.pointer_of_jlong hprofile)
               cmsInfoDescription lit_en lit_EN 512)]
  ∧ (∀ r, returned o = Some r →
          ∃ s, deref r (final o) = Some (JString s) ∧ (length s <= 511)%nat).
Proof.
  intros o. subst o. rewrite run_GetProfileInfoASCII.
  destruct (read_cstring _) as [f | s] eqn:Hread.
  - split; [reflexivity | discriminate].
  - split; [reflexivity |].
    intros r [= <-]. exists s. split.
    + apply deref_heap; [apply fresh_key_not_null |].
      simpl. apply lookup_insert_eq.
    + apply read_cstring_shorter in Hread.
      rewrite length_store_chars, length_uninitialised in Hread. lia.
Qed.

(** A string is returned exactly when the library leaves a NUL among the
    bytes it stored in the buffer. *)
Lemma read_cstring_stored stored n :
  x00 ∈ take n stored →
  ∃ s, read_cstring (store_chars stored (uninitialised n)) = inr s.
Proof.
  unfold store_chars. rewrite length_uninitialised.
  revert n. induction stored as [| b stored IH]; intros n Hin.
  - rewrite take_nil in Hin. inversion Hin.
  - destruct n as [| n]; [inversion Hin |].
    simpl in *. destruct (Byte.eqb b x00) eqn:Hb; [eauto |].
    apply elem_of_cons in Hin as [Hin | Hin].
    + subst b. discriminate.
    + unfold uninitialised. rewrite drop_replicate.
      replace (S n - S (length stored))%nat with (n - length stored)%nat by lia.
      specialize (IH n Hin). unfold uninitialised in IH.
      rewrite drop_replicate in IH. destruct IH as [s ->]. eauto.
Qed.

(** When the library leaves a NUL among the first 512 bytes it stores, a
    string is returned, and it has at most 511 bytes. *)
Lemma description_returned_when_terminated (w : World L) (hprofile : jlong) :
  let p := Int.pointer_of_jlong hprofile in
  let stored :=
    (cmsGetProfileInfoASCII p cmsInfoDescription lit_en lit_EN 512 (lcms w)).1.1 in
  let o := Java_com_gmail_etordera_jcms_JCMS_cmsGetProfileInfoASCII hprofile w in
  x00 ∈ take 512 stored →
  ∃ r s,
    returned o = Some r
    ∧ deref r (final o) = Some (JString s)
    ∧ (length s <= 511)%nat.
Proof.
  intros p stored o Hnul.
  destruct (read_cstring_stored stored 512 Hnul) as [s Hs].
  pose proof (description_query_and_bound w hprofile) as [_ Hbound].
  fold o in Hbound.
  assert (returned o = Some (fresh_key (heap w))) as Hret.
  { subst o. rewrite run_GetProfileInfoASCII. fold p. fold stored.
    rewrite Hs. reflexivity. }
  destruct (Hbound _ Hret) as (s' & Hd & Hlen).
  exists (fresh_key (heap w)), s'. auto.
Qed.

(** ** Views are given back *)

Ltac run_in H E :=
  unfold call, mbind, M_mbind, M_bind in H; rewrite E in H; simpl in H.

Lemma no_views_balanced (t : list Event) :
  acquired t = [] → released t = [] → released_exactly_once t.
Proof.
  unfold released_exactly_once. intros -> ->. split; [constructor | reflexivity].
Qed.

Lemma two_views_balanced (k : ViewKind) (a1 a2 : jobject) (v1 v2 : address) :
  v1 ≠ v2 →
  NoDup [(k, a1, v1); (k, a2, v2)]
  ∧ [(k, a1, v1); (k, a2, v2)] ≡ₚ [(k, a1, v1); (k, a2, v2)].
Proof.
  intros Hne. split; [| reflexivity].
  apply NoDup_cons. split; [| apply NoDup_singleton].
  intros Hin. apply list_elem_of_singleton in Hin. congruence.
Qed.

(** Whenever a function of the binding returns, every view it acquired was
    given back exactly once, and the views alive in the runtime are those
    that were alive before the call. *)
Lemma returning_call_releases_each_view_once (op : Operation) (w w' : World L) r t :
  call op w = Returns r w' t →
  released_exactly_once t ∧ views w' = views w.
Proof.
  destruct op as [filename mode | dataBuffer | h | h | h | hi ti ho to i f
                 | h | h inputBuffer outputBuffer size | | gamma ]; intros Hcall.
  - destruct (string_behind filename w) as [f |] eqn:Ef.
    2: { run_in Hcall (run_OpenProfileFromFile_no_filename w filename mode Ef).
         discriminate. }
    destruct (string_behind mode w) as [m |] eqn:Em.
    2: { destruct (run_OpenProfileFromFile_no_mode w filename mode f Ef Em)
           as (wc & E & _).
         run_in Hcall E. discriminate. }
    destruct (run_OpenProfileFromFile w filename mode f m
                (string_behind_Some _ _ _ Ef) (string_behind_Some _ _ _ Em))
      as (v1 & v2 & Hne & E).
    run_in Hcall E. injection Hcall as _ <- <-.
    split; [| reflexivity]. apply two_views_balanced, Hne.
  - destruct (array_behind dataBuffer w) as [bs |] eqn:Ed.
    2: { run_in Hcall (run_OpenProfileFromMem_no_array w dataBuffer Ed).
         discriminate. }
    destruct (run_OpenProfileFromMem w dataBuffer bs (array_behind_Some _ _ _ Ed))
      as (v & E).
    run_in Hcall E. injection Hcall as _ <- <-.
    split; [| reflexivity].
    split; [apply NoDup_singleton | reflexivity].
  - run_in Hcall (run_CloseProfile w h). injection Hcall as _ <- <-.
    split; [apply no_views_balanced |]; reflexivity.
  - run_in Hcall (run_GetProfileInfoASCII w h).
    destruct (read_cstring _); simpl in Hcall; [discriminate |].
    injection Hcall as _ <- <-.
    split; [apply no_views_balanced |]; reflexivity.
  - set (q := cmsSaveProfileToMem (Int.pointer_of_jlong h) None 0 (lcms w)).
    destruct (q.1.1.1) eqn:Hq.
    + destruct (Z_lt_ge_dec (q.1.1.2) (2 ^ 31)) as [Hn | Hn].
      * pose proof (run_SaveProfileToMem_fill w h Hq Hn) as E.
        cbv zeta in E. run_in Hcall E.
        destruct (cmsSaveProfileToMem _ (Some _) _ _).1.1.1;
          simpl in Hcall; [| discriminate].
        injection Hcall as _ <- <-.
        split; [| reflexivity].
        split; [apply NoDup_singleton | reflexivity].
      * assert (2 ^ 31 <= q.1.1.2) as Hn' by lia.
        run_in Hcall (run_SaveProfileToMem_too_large w h Hq Hn'). discriminate.
    + run_in Hcall (run_SaveProfileToMem_query_fails w h Hq).
      injection Hcall as _ <- <-.
      split; [apply no_views_balanced |]; reflexivity.
  - run_in Hcall (run_CreateTransform w hi ti ho to i f).
    injection Hcall as _ <- <-.
    split; [apply no_views_balanced |]; reflexivity.
  - run_in Hcall (run_DeleteTransform w h). injection Hcall as _ <- <-.
    split; [apply no_views_balanced |]; reflexivity.
  - destruct (array_behind inputBuffer w) as [ibs |] eqn:Ei.
    2: { run_in Hcall (run_DoTransform_no_input w h inputBuffer outputBuffer size Ei).
         discriminate. }
    destruct (array_behind outputBuffer w) as [obs |] eqn:Eo.
    2: { destruct (run_DoTransform_no_output w h inputBuffer outputBuffer size ibs Ei Eo)
           as (wc & E & _).
         run_in Hcall E. discriminate. }
    destruct (run_DoTransform w h inputBuffer outputBuffer size ibs obs
                (array_behind_Some _ _ _ Ei) (array_behind_Some _ _ _ Eo))
      as (v1 & v2 & Hne & E).
    run_in Hcall E. injection Hcall as _ <- <-.
    split; [| reflexivity]. apply two_views_balanced, Hne.
  - run_in Hcall (run_Create_sRGBProfile w). injection Hcall as _ <- <-.
    split; [apply no_views_balanced |]; reflexivity.
  - run_in Hcall (run_CreateGrayProfile w gamma). injection Hcall as _ <- <-.
    split; [apply no_views_balanced |]; reflexivity.
Qed.

(** Where the fill fails, the function stops at the delete-expression: the
    view of the new array was acquired and is not released, and nothing is
    returned. *)
Lemma save_fill_failure_faults_at_delete (w : World L) (hprofile : jlong) :
  let p := Int.pointer_of_jlong hprofile in
  let q := cmsSaveProfileToMem p None 0 (lcms w) in
  let n := q.1.1.2 in
  let f := cmsSaveProfileToMem p (Some (replicate (Z.to_nat n) x00)) n q.2 in
  let o := Java_com_gmail_etordera_jcms_JCMS_cmsSaveProfileToMem hprofile w in
  q.1.1.1 = true →
  n < 2 ^ 31 →
  f.1.1.1 = false →
  returned o = None
  ∧ fault o = Some InvalidDelete
  ∧ last (events o) = Some (EvDelete (fresh_key (heap w)))
  ∧ acquired (events o) = [(Elements, fresh_key (heap w), fresh_key (views w))]
  ∧ released (events o) = []
  ∧ is_Some (views (final o) !! fresh_key (views w)).
Proof.
  intros p q n f o Hq Hn Hf.
  pose proof (run_SaveProfileToMem_fill w hprofile Hq Hn) as Hrun.
  fold p q n f o in Hrun. rewrite Hf in Hrun. rewrite Hrun.
  repeat split; try reflexivity.
  simpl. rewrite lookup_insert_eq. eauto.
Qed.

(** ** No state of its own *)

Ltac run_both E1 E2 :=
  unfold call, mbind, M_mbind, M_bind; rewrite E1, E2; simpl.

Lemma deref_after_store (r a : jobject) x (w : World L) l :
  a ≠ NULL →
  deref r (set_heap (<[a := x]> (heap w)) (set_lcms l w))
  = if decide (r = a) then Some x else deref r w.
Proof.
  intros Ha. unfold deref. simpl. destruct (decide (r = a)) as [-> | Hne].
  - apply N.eqb_neq in Ha. rewrite Ha. apply lookup_insert_eq.
  - rewrite lookup_insert_ne by congruence. reflexivity.
Qed.

Lemma array_behind_not_null (r : jobject) (w : World L) bs :
  array_behind r w = Some bs → r ≠ NULL.
Proof.
  intros Hr%array_behind_Some. apply deref_Some in Hr as [Hn _].
  apply N.eqb_neq, Hn.
Qed.

(** With a read of an unwritten byte, a delete of a JNI reference and a
    JNI call on a bad reference counted as one fault each, two calls of
    the same operation on the same arguments, in two runtimes that agree
    on the objects behind the argument references and on the library,
    have the same outcome. *)
Lemma outcome_determined_by_arguments_and_library
    (op : Operation) (w1 w2 : World L) :
  lcms w1 = lcms w2 →
  (∀ r, r ∈ operands op → deref r w1 = deref r w2) →
  observe op (call op w1) = observe op (call op w2).
Proof.
  intros Hl Hargs.
  destruct op as [filename mode | dataBuffer | h | h | h | hi ti ho to i f
                 | h | h inputBuffer outputBuffer size | | gamma ].
  - assert (deref filename w1 = deref filename w2) as Hf
        by (apply Hargs; simpl; set_solver).
    assert (deref mode w1 = deref mode w2) as Hm
        by (apply Hargs; simpl; set_solver).
    assert (string_behind filename w1 = string_behind filename w2) as Hsf
        by (unfold string_behind; rewrite Hf; reflexivity).
    assert (string_behind mode w1 = string_behind mode w2) as Hsm
        by (unfold string_behind; rewrite Hm; reflexivity).
    destruct (string_behind filename w2) as [f |] eqn:Ef.
    2: { run_both (run_OpenProfileFromFile_no_filename w1 filename mode Hsf)
                  (run_OpenProfileFromFile_no_filename w2 filename mode Ef).
         rewrite Hl. reflexivity. }
    destruct (string_behind mode w2) as [m |] eqn:Em.
    2: { destruct (run_OpenProfileFromFile_no_mode w1 filename mode f Hsf Hsm)
           as (wc1 & E1 & Hl1).
         destruct (run_OpenProfileFromFile_no_mode w2 filename mode f Ef Em)
           as (wc2 & E2 & Hl2).
         run_both E1 E2. rewrite Hl1, Hl2, Hl. reflexivity. }
    destruct (run_OpenProfileFromFile w1 filename mode f m
                (string_behind_Some _ _ _ Hsf) (string_behind_Some _ _ _ Hsm))
      as (v1 & v2 & _ & E1).
    destruct (run_OpenProfileFromFile w2 filename mode f m
                (string_behind_Some _ _ _ Ef) (string_behind_Some _ _ _ Em))
      as (v1' & v2' & _ & E2).
    run_both E1 E2. rewrite Hl.
    change (deref filename (set_lcms ?l w1)) with (deref filename w1).
    change (deref mode (set_lcms ?l w1)) with (deref mode w1).
    change (deref filename (set_lcms ?l w2)) with (deref filename w2).
    change (deref mode (set_lcms ?l w2)) with (deref mode w2).
    rewrite Hf, Hm. reflexivity.
  - assert (deref dataBuffer w1 = deref dataBuffer w2) as Hd
        by (apply Hargs; simpl; set_solver).
    assert (array_behind dataBuffer w1 = array_behind dataBuffer w2) as Had
        by (unfold array_behind; rewrite Hd; reflexivity).
    destruct (array_behind dataBuffer w2) as [bs |] eqn:Ed.
    2: { run_both (run_OpenProfileFromMem_no_array w1 dataBuffer Had)
                  (run_OpenProfileFromMem_no_array w2 dataBuffer Ed).
         rewrite Hl. reflexivity. }
    destruct (run_OpenProfileFromMem w1 dataBuffer bs (array_behind_Some _ _ _ Had))
      as (v & E1).
    destruct (run_OpenProfileFromMem w2 dataBuffer bs (array_behind_Some _ _ _ Ed))
      as (v' & E2).
    run_both E1 E2. rewrite Hl.
    change (deref dataBuffer (set_lcms ?l w1)) with (deref dataBuffer w1).
    change (deref dataBuffer (set_lcms ?l w2)) with (deref dataBuffer w2).
    rewrite Hd. reflexivity.
  - run_both (run_CloseProfile w1 h) (run_CloseProfile w2 h).
    rewrite Hl. reflexivity.
  - run_both (run_GetProfileInfoASCII w1 h) (run_GetProfileInfoASCII w2 h).
    rewrite Hl. destruct (read_cstring _); simpl; [reflexivity |].
    unfold deref, NULL. simpl.
    rewrite !fresh_key_eqb_null, !lookup_insert_eq. reflexivity.
  - set (q := cmsSaveProfileToMem (Int.pointer_of_jlong h) None 0 (lcms w2)).
    assert (cmsSaveProfileToMem (Int.pointer_of_jlong h) None 0 (lcms w1) = q) as Hq1
        by (rewrite Hl; reflexivity).
    destruct (q.1.1.1) eqn:Hq.
    + destruct (Z_lt_ge_dec (q.1.1.2) (2 ^ 31)) as [Hn | Hn].
      * pose proof (run_SaveProfileToMem_fill w2 h Hq Hn) as E2.
        pose proof (run_SaveProfileToMem_fill w1 h) as E1.
        cbv zeta in E1, E2. rewrite Hq1 in E1. specialize (E1 Hq Hn).
        run_both E1 E2. fold q.
        destruct (cmsSaveProfileToMem _ (Some _) _ _).1.1.1; simpl.
        -- unfold deref, NULL. simpl.
           rewrite !fresh_key_eqb_null, !lookup_insert_eq. reflexivity.
        -- reflexivity.
      * assert (2 ^ 31 <= q.1.1.2) as Hn' by lia.
        pose proof (run_SaveProfileToMem_too_large w2 h Hq Hn') as E2.
        pose proof (run_SaveProfileToMem_too_large w1 h) as E1.
        cbv zeta in E1, E2. rewrite Hq1 in E1. specialize (E1 Hq Hn').
        run_both E1 E2. reflexivity.
    + pose proof (run_SaveProfileToMem_query_fails w2 h Hq) as E2.
      pose proof (run_SaveProfileToMem_query_fails w1 h) as E1.
      cbv zeta in E1, E2. rewrite Hq1 in E1. specialize (E1 Hq).
      run_both E1 E2. unfold deref, NULL. simpl.
      rewrite !fresh_key_eqb_null, !lookup_insert_eq. reflexivity.
  - run_both (run_CreateTransform w1 hi ti ho to i f)
             (run_CreateTransform w2 hi ti ho to i f).
    rewrite Hl. reflexivity.
  - run_both (run_DeleteTransform w1 h) (run_DeleteTransform w2 h).
    rewrite Hl. reflexivity.
  - assert (deref inputBuffer w1 = deref inputBuffer w2) as Hi
        by (apply Hargs; simpl; set_solver).
    assert (deref outputBuffer w1 = deref outputBuffer w2) as Ho
        by (apply Hargs; simpl; set_solver).
    assert (array_behind inputBuffer w1 = array_behind inputBuffer w2) as Hai
        by (unfold array_behind; rewrite Hi; reflexivity).
    assert (array_behind outputBuffer w1 = array_behind outputBuffer w2) as Hao
        by (unfold array_behind; rewrite Ho; reflexivity).
    destruct (array_behind inputBuffer w2) as [ibs |] eqn:Ei.
    2: { run_both (run_DoTransform_no_input w1 h inputBuffer outputBuffer size Hai)
                  (run_DoTransform_no_input w2 h inputBuffer outputBuffer size Ei).
         rewrite Hl. reflexivity. }
    destruct (array_behind outputBuffer w2) as [obs |] eqn:Eo.
    2: { destruct (run_DoTransform_no_output w1 h inputBuffer outputBuffer size ibs Hai Hao)
           as (wc1 & E1 & Hl1).
         destruct (run_DoTransform_no_output w2 h inputBuffer outputBuffer size ibs Ei Eo)
           as (wc2 & E2 & Hl2).
         run_both E1 E2. rewrite Hl1, Hl2, Hl. reflexivity. }
    destruct (run_DoTransform w1 h inputBuffer outputBuffer size ibs obs
                (array_behind_Some _ _ _ Hai) (array_behind_Some _ _ _ Hao))
      as (v1 & v2 & _ & E1).
    destruct (run_DoTransform w2 h inputBuffer outputBuffer size ibs obs
                (array_behind_Some _ _ _ Ei) (array_behind_Some _ _ _ Eo))
      as (v1' & v2' & _ & E2).
    unfold call, mbind, M_mbind, M_bind, mret, M_mret, M_ret. rewrite E1, E2.
    cbv beta iota. unfold observe, operands. cbn [map].
    pose proof (array_behind_not_null _ _ _ Eo) as Hnn.
    rewrite !deref_after_store by exact Hnn.
    rewrite Hl, Hi, Ho. reflexivity.
  - run_both (run_Create_sRGBProfile w1) (run_Create_sRGBProfile w2).
    rewrite Hl. reflexivity.
  - run_both (run_CreateGrayProfile w1 gamma) (run_CreateGrayProfile w2 gamma).
    rewrite Hl. reflexivity.
Qed.

End Claims.

(** ** The binding on the sample scripts *)

Module Runs.

(** The library reports failure on close; the caller is told true. *)
Example close_profile_sample :
  let o := Java_com_gmail_etordera_jcms_JCMS_cmsCloseProfile (-1)
             (Sample.world Sample.plain) in
  returned o = Some true
  ∧ events o = [EvLcms (CallCloseProfile (2 ^ 64 - 1) false)].
Proof. vm_compute. split; reflexivity. Qed.


(** C4 as stated fails: the size query succeeds with 2^31, the length
    passed to NewByteArray is - 2^31, no array of 2^31 bytes is created,
    the library is not called a second time and nothing is returned. *)
Lemma save_two_phase_counterexample :
  let w := Sample.world Sample.huge in
  let o := Java_com_gmail_etordera_jcms_JCMS_cmsSaveProfileToMem 1 w in
  (cmsSaveProfileToMem (Int.pointer_of_jlong 1) None 0 (lcms w)).1.1 = (true, 2 ^ 31)
  ∧ events o = [EvLcms (CallSaveProfileToMem 1 None 0 true (2 ^ 31));
                EvNewByteArray (- 2 ^ 31) NULL]
  ∧ fault o = Some NullReference
  ∧ returned o = None
  ∧ ¬ (∃ r v c,
         take 4 (events o)
         = [EvLcms (CallSaveProfileToMem 1 None 0 true (2 ^ 31));
            EvNewByteArray (2 ^ 31) r;
            EvGetByteArrayElements r v;
            EvLcms c]).
Proof.
  intros w o. repeat split; try (vm_compute; reflexivity).
  intros (r & v & c & H). vm_compute in H. discriminate H.
Qed.

Lemma save_two_phase_witness :
  let w := Sample.world Sample.plain in
  let zeros := [x00; x00; x00; x00] in
  ∃ r v,
    let two_phases :=
      [EvLcms (CallSaveProfileToMem 1 None 0 true 4);
       EvNewByteArray 4 r;
       EvGetByteArrayElements r v;
       EvLcms (CallSaveProfileToMem 1 (Some zeros) 4 true 4)] in
    r ≠ NULL
    ∧ deref r w = None
    ∧ Z.of_nat (length zeros) = 4
    ∧ take 4 (events (Java_com_gmail_etordera_jcms_JCMS_cmsSaveProfileToMem 1 w)) = two_phases
    ∧ (true = true →
       ∃ w',
         Java_com_gmail_etordera_jcms_JCMS_cmsSaveProfileToMem 1 w = Returns r w' (two_phases ++ [EvReleaseByteArrayElements r v 0])
         ∧ deref r w' = Some (JByteArray (store_elems [x01; x02; x03; x04] zeros))
         ∧ Z.of_nat (length (store_elems [x01; x02; x03; x04] zeros)) = 4).
Proof.
  exact (save_two_phase_protocol (Sample.world Sample.plain) 1
           eq_refl eq_refl eq_refl).
Defined.

(** In a runtime that cannot construct the four bytes, the size query
    succeeds, NewByteArray yields NULL with OutOfMemoryError pending, and
    the function passes the null reference to GetByteArrayElements. *)
Example save_without_memory_sample :
  let o := @Java_com_gmail_etordera_jcms_JCMS_cmsSaveProfileToMem
             _ _ Sample.small_runtime 1 (Sample.world Sample.plain) in
  returned o = None
  ∧ fault o = Some NullReference
  ∧ pending (final o) = Some OutOfMemoryError
  ∧ events o = [EvLcms (CallSaveProfileToMem 1 None 0 true 4);
                EvNewByteArray 4 NULL].
Proof. vm_compute. repeat split; reflexivity. Qed.

(** C3 fails where the fill fails: the view of the new array has been
    acquired, the delete-expression faults, and the view is still alive:
    it was not released. *)
Lemma save_fill_failure_leaves_view_alive :
  let o := Java_com_gmail_etordera_jcms_JCMS_cmsSaveProfileToMem 1 (Sample.world Sample.no_fill) in
  fault o = Some InvalidDelete
  ∧ acquired (events o) = [(Elements, 5%N, 1%N)]
  ∧ released (events o) = []
  ∧ views (final o) !! 1%N = Some (ByteElements 5%N [x01; x00; x00; x00])
  ∧ ¬ released_exactly_once (events o).
Proof.
  intros o.
  assert (acquired (events o) = [(Elements, 5%N, 1%N)]) as Ha
      by (vm_compute; reflexivity).
  assert (released (events o) = []) as Hr by (vm_compute; reflexivity).
  repeat split; try assumption; try (vm_compute; reflexivity).
  unfold released_exactly_once. rewrite Ha, Hr. intros [_ Hp].
  apply Permutation_nil_r in Hp. discriminate Hp.
Qed.

(** C10 fails where the fill fails: the function stops at the
    delete-expression; no array of length zero is created and nothing is
    returned. *)
Lemma save_fill_failure_returns_nothing :
  let o := Java_com_gmail_etordera_jcms_JCMS_cmsSaveProfileToMem 1 (Sample.world Sample.no_fill) in
  returned o = None
  ∧ fault o = Some InvalidDelete
  ∧ events o = [EvLcms (CallSaveProfileToMem 1 None 0 true 4);
                EvNewByteArray 4 5%N;
                EvGetByteArrayElements 5%N 1%N;
                EvLcms (CallSaveProfileToMem 1 (Some [x00; x00; x00; x00]) 4 false 4);
                EvDelete 5%N].
Proof. vm_compute. repeat split; reflexivity. Qed.

(** C5 fails for a profile without description text: the library stores
    nothing, the buffer has no initialiser, and NewStringUTF reads an
    indeterminate byte; no string of at most 511 bytes is returned. *)
Lemma description_without_text_reads_indeterminate_bytes :
  let o := Java_com_gmail_etordera_jcms_JCMS_cmsGetProfileInfoASCII 1 (Sample.world Sample.no_description) in
  returned o = None
  ∧ fault o = Some IndeterminateRead
  ∧ events o = [EvLcms (CallGetProfileInfoASCII 1 cmsInfoDescription
                          lit_en lit_EN 512)].
Proof. vm_compute. repeat split; reflexivity. Qed.

(** C8 fails for the description of a profile without text: the library
    stores nothing, so the String is read from 512 bytes that neither the
    arguments nor the library wrote.  The run is undefined at that read;
    on a machine that reads there what the stack holds, two stacks give
    two Strings for the same arguments and the same library. *)
Lemma description_built_from_unwritten_bytes :
  let w := Sample.world Sample.no_description in
  let o := call (GetProfileInfoASCII 1) w in
  let buffer :=
    store_chars
      (cmsGetProfileInfoASCII 1 cmsInfoDescription lit_en lit_EN 512 (lcms w)).1.1
      (uninitialised 512) in
  buffer = replicate 512 None
  ∧ fault o = Some IndeterminateRead
  ∧ read_cstring (on_stack (x41 :: replicate 511 x00) buffer) = inr [x41]
  ∧ read_cstring (on_stack (x42 :: x43 :: replicate 510 x00) buffer)
    = inr [x42; x43].
Proof. vm_compute. repeat split; reflexivity. Qed.

(** With a description the string comes back. *)
Example description_sample :
  let o := Java_com_gmail_etordera_jcms_JCMS_cmsGetProfileInfoASCII 1 (Sample.world Sample.plain) in
  returned o = Some 5%N
  ∧ deref 5%N (final o) = Some (JString Sample.text_sRGB).
Proof. vm_compute. split; reflexivity. Qed.



Lemma open_from_memory_witness :
  ∃ v h w',
    Java_com_gmail_etordera_jcms_JCMS_cmsOpenProfileFromMem 3%N
      (Sample.world Sample.plain)
    = Returns (Int.jlong_of_pointer h) w'
              [EvGetByteArrayElements 3%N v;
               EvGetArrayLength 3%N 3;
               EvLcms (CallOpenProfileFromMem [x0a; x0b; x0c] 3 h);
               EvReleaseByteArrayElements 3%N v 0]
    ∧ (h, lcms w') = cmsOpenProfileFromMem [x0a; x0b; x0c] 3 Sample.plain.
Proof.
  refine (open_from_memory_passes_whole_buffer (Sample.world Sample.plain) 3%N
            [x0a; x0b; x0c] eq_refl _).
  unfold Int.is_jint. simpl. lia.
Defined.

End Runs.

(** * Further properties of the binding *)

(** ** Native memory, continued *)

Lemma store_chars_cons b stored n :
  store_chars (b :: stored) (uninitialised (S n))
  = Some b :: store_chars stored (uninitialised n).
Proof.
  unfold store_chars, uninitialised. rewrite !length_replicate. simpl.
  rewrite !drop_replicate.
  replace (S n - S (length stored))%nat with (n - length stored)%nat by lia.
  reflexivity.
Qed.

Lemma read_cstring_before_nul stored n :
  x00 ∈ take n stored →
  read_cstring (store_chars stored (uninitialised n)) = inr (before_nul stored).
Proof.
  revert n. induction stored as [| b stored IH]; intros n Hin.
  - rewrite take_nil in Hin. inversion Hin.
  - destruct n as [| n]; [inversion Hin |].
    rewrite store_chars_cons. simpl in *.
    destruct (Byte.eqb b x00) eqn:Hb; [reflexivity |].
    apply elem_of_cons in Hin as [Hin | Hin].
    + subst b. discriminate.
    + rewrite (IH n Hin). reflexivity.
Qed.

(** Bytes stored into a new array leave the zeros behind them. *)
Lemma store_elems_zero_padding stored n :
  (length stored <= n)%nat →
  store_elems stored (replicate n x00)
  = stored ++ replicate (n - length stored) x00.
Proof.
  intros Hle. unfold store_elems.
  rewrite length_replicate, drop_replicate.
  apply take_ge. rewrite length_app, length_replicate. lia.
Qed.

(** Bytes stored within a buffer leave the rest of it as it was. *)
Lemma store_elems_within stored buf :
  (length stored <= length buf)%nat →
  store_elems stored buf = stored ++ drop (length stored) buf.
Proof.
  intros Hle. unfold store_elems.
  apply take_ge. rewrite length_app, length_drop. lia.
Qed.

Section Extras.

Context {L : Type} `{!Lcms L}.

(** ** The description *)

(** X10. When the library leaves a NUL among the first 512 bytes it stores,
    get-description returns a fresh String that holds exactly the bytes
    stored before the first NUL. *)
Theorem description_is_text_before_first_nul (w : World L) (hprofile : jlong) :
  let p := Int.pointer_of_jlong hprofile in
  let stored :=
    (cmsGetProfileInfoASCII p cmsInfoDescription lit_en lit_EN 512 (lcms w)).1.1 in
  let o := Java_com_gmail_etordera_jcms_JCMS_cmsGetProfileInfoASCII hprofile w in
  x00 ∈ take 512 stored →
  ∃ r,
    returned o = Some r
    ∧ r ≠ NULL
    ∧ deref r w = None
    ∧ deref r (final o) = Some (JString (before_nul stored)).
Proof.
  intros p stored o Hnul. subst o.
  rewrite run_GetProfileInfoASCII. fold p. fold stored.
  rewrite (read_cstring_before_nul stored 512 Hnul).
  exists (fresh_key (heap w)).
  split; [reflexivity |].
  split; [apply fresh_key_not_null |].
  split; [apply deref_fresh |].
  apply deref_heap; [apply fresh_key_not_null |].
  simpl. apply lookup_insert_eq.
Qed.

(** ** Saving a profile, continued *)

(** X12. When both library calls succeed, the size [n] is below 2^31 and the
    library stores at most [n] bytes, the array that save-to-memory
    returns holds the stored bytes followed by zeros up to length [n]; in
    particular it is exactly the stored bytes when [n] of them are
    stored. *)
Theorem save_returns_stored_bytes (w : World L) (hprofile : jlong) :
  let p := Int.pointer_of_jlong hprofile in
  let q := cmsSaveProfileToMem p None 0 (lcms w) in
  let n := q.1.1.2 in
  let f := cmsSaveProfileToMem p (Some (replicate (Z.to_nat n) x00)) n q.2 in
  let stored := f.1.2 in
  let o := Java_com_gmail_etordera_jcms_JCMS_cmsSaveProfileToMem hprofile w in
  q.1.1.1 = true →
  n < 2 ^ 31 →
  f.1.1.1 = true →
  Z.of_nat (length stored) <= n →
  ∃ r,
    returned o = Some r
    ∧ deref r (final o)
      = Some (JByteArray
                (stored ++ replicate (Z.to_nat n - length stored) x00))
    ∧ (Z.of_nat (length stored) = n →
       deref r (final o) = Some (JByteArray stored))
    ∧ pending (final o) = pending w.
Proof.
  intros p q n f stored o Hq Hn Hf Hlen.
  pose proof (run_SaveProfileToMem_fill w hprofile Hq Hn) as Hrun.
  fold p q n f o in Hrun. rewrite Hf in Hrun.
  exists (fresh_key (heap w)). rewrite Hrun.
  assert (deref (fresh_key (heap w))
            (set_heap
               (<[fresh_key (heap w) :=
                    JByteArray (store_elems f.1.2 (replicate (Z.to_nat n) x00))]>
                  (heap w))
               (set_lcms f.2 w))
          = Some (JByteArray (stored ++ replicate (Z.to_nat n - length stored) x00)))
    as Hd.
  { apply deref_heap; [apply fresh_key_not_null |].
    simpl. rewrite lookup_insert_eq. fold stored.
    rewrite store_elems_zero_padding by lia. reflexivity. }
  split; [reflexivity |].
  split; [exact Hd |].
  split; [| reflexivity].
  intros Heq. simpl final. rewrite Hd.
  replace (Z.to_nat n - length stored)%nat with 0%nat by lia.
  simpl. rewrite app_nil_r. reflexivity.
Qed.

(** X13. When the size query succeeds with a size of 2^31 or more, the
    length passed to NewByteArray is negative: NegativeArraySizeException
    is left pending, GetByteArrayElements is called on the null reference,
    the library is not called a second time and nothing is returned. *)
Theorem save_oversized_profile_faults (w : World L) (hprofile : jlong) :
  let p := Int.pointer_of_jlong hprofile in
  let q := cmsSaveProfileToMem p None 0 (lcms w) in
  let o := Java_com_gmail_etordera_jcms_JCMS_cmsSaveProfileToMem hprofile w in
  q.1.1.1 = true →
  2 ^ 31 <= q.1.1.2 →
  returned o = None
  ∧ fault o = Some NullReference
  ∧ pending (final o) = Some NegativeArraySizeException
  ∧ library_calls (events o) = [CallSaveProfileToMem p None 0 true q.1.1.2]
  ∧ (∃ len, len < 0 ∧ last (events o) = Some (EvNewByteArray len NULL))
  ∧ heap (final o) = heap w.
Proof.
  intros p q o Hq Hn.
  pose proof (run_SaveProfileToMem_too_large w hprofile Hq Hn) as Hrun.
  fold p q o in Hrun. rewrite Hrun.
  repeat split; try reflexivity.
  exists (Int.jsize_of_uint32 q.1.1.2). split; [| reflexivity].
  apply IntFacts.jsize_of_uint32_large.
  pose proof (cmsSaveProfileToMem_uint32 p None 0 (lcms w)) as Hu.
  fold q in Hu. unfold Int.is_uint32 in Hu. lia.
Qed.

(** X14. A profile saved to memory can be handed back: when save-to-memory
    returns an array, open-from-memory on that array, in the world the
    save left, passes the library the bytes of the array and the size the
    size query had reported. *)
Theorem saved_profile_reopens (w : World L) (hprofile : jlong) :
  let p := Int.pointer_of_jlong hprofile in
  let q := cmsSaveProfileToMem p None 0 (lcms w) in
  let n := q.1.1.2 in
  let zeros := replicate (Z.to_nat n) x00 in
  let f := cmsSaveProfileToMem p (Some zeros) n q.2 in
  let saved := Java_com_gmail_etordera_jcms_JCMS_cmsSaveProfileToMem hprofile w in
  q.1.1.1 = true →
  n < 2 ^ 31 →
  f.1.1.1 = true →
  ∃ r,
    returned saved = Some r
    ∧ let reopened :=
        Java_com_gmail_etordera_jcms_JCMS_cmsOpenProfileFromMem r (final saved) in
      let bytes := store_elems f.1.2 zeros in
      let h := (cmsOpenProfileFromMem bytes n f.2).1 in
      library_calls (events reopened) = [CallOpenProfileFromMem bytes n h]
      ∧ returned reopened = Some (Int.jlong_of_pointer h)
      ∧ deref r (final reopened) = Some (JByteArray bytes).
Proof.
  intros p q n zeros f saved Hq Hn Hf.
  pose proof (run_SaveProfileToMem_fill w hprofile Hq Hn) as Hrun.
  fold p q n zeros f saved in Hrun. rewrite Hf in Hrun.
  pose proof (cmsSaveProfileToMem_uint32 p None 0 (lcms w)) as Hu.
  fold q in Hu. fold n in Hu. unfold Int.is_uint32 in Hu.
  exists (fresh_key (heap w)). rewrite Hrun.
  split; [reflexivity |].
  simpl final.
  set (bytes := store_elems f.1.2 zeros).
  set (w1 := set_heap (<[fresh_key (heap w) := JByteArray bytes]> (heap w))
                      (set_lcms f.2 w)).
  assert (deref (fresh_key (heap w)) w1 = Some (JByteArray bytes)) as Hd.
  { apply deref_heap; [apply fresh_key_not_null |].
    simpl. apply lookup_insert_eq. }
  destruct (run_OpenProfileFromMem w1 (fresh_key (heap w)) bytes Hd) as (v & Hopen).
  assert (Z.of_nat (length bytes) = n) as Hlen.
  { unfold bytes. rewrite length_store_elems. unfold zeros.
    rewrite length_replicate. lia. }
  rewrite Hlen in Hopen.
  rewrite IntFacts.uint32_of_jsize_small in Hopen by lia.
  cbv zeta. rewrite Hopen.
  split; [reflexivity |]. split; [reflexivity |].
  exact Hd.
Qed.

(** ** Applying a transform *)

(** X6. On two byte arrays apply-transform returns after one library call,
    which is given the bytes of the input array, the bytes of the output
    array and the pixel count converted to cmsUInt32Number (the same 32
    bits; the same value when the count is not negative).  When the
    library stores no more bytes than the output array has, the output
    array afterwards holds the stored bytes followed by the rest of its
    former bytes; the input array, when it is another array, holds the
    bytes it held; no view is left alive and no exception is raised.
    When both references denote one array, that array ends as the
    output. *)
Theorem apply_transform_stores_into_output
    (w : World L) (hTransform : jlong) (inputBuffer outputBuffer : jobject)
    (size : jint) (ibs obs : list byte) :
  deref inputBuffer w = Some (JByteArray ibs) →
  deref outputBuffer w = Some (JByteArray obs) →
  let t := Int.pointer_of_jlong hTransform in
  let n := Int.uint32_of_jint size in
  let stored := (cmsDoTransform t ibs obs n (lcms w)).1 in
  let o := Java_com_gmail_etordera_jcms_JCMS_cmsDoTransform
             hTransform inputBuffer outputBuffer size w in
  (length stored <= length obs)%nat →
  returned o = Some tt
  ∧ library_calls (events o) = [CallDoTransform t ibs obs n]
  ∧ (Int.is_jint size →
     Int.jint_of_uint32 n = size ∧ (0 <= size → n = size))
  ∧ deref outputBuffer (final o)
    = Some (JByteArray (stored ++ drop (length stored) obs))
  ∧ (inputBuffer ≠ outputBuffer →
     deref inputBuffer (final o) = Some (JByteArray ibs))
  ∧ views (final o) = views w
  ∧ pending (final o) = pending w.
Proof.
  intros Hi Ho t n stored o Hfit.
  destruct (run_DoTransform w hTransform inputBuffer outputBuffer size ibs obs Hi Ho)
    as (v1 & v2 & _ & Hrun).
  fold t n o in Hrun. rewrite Hrun.
  assert (outputBuffer ≠ NULL) as Hnn.
  { apply deref_Some in Ho as [Hn _]. apply N.eqb_neq, Hn. }
  split; [reflexivity |]. split; [reflexivity |].
  split.
  { intros Hsize. split; [apply IntFacts.jint_of_uint32_of_jint, Hsize |].
    intros Hpos. apply IntFacts.uint32_of_jint_nonnegative.
    unfold Int.is_jint in Hsize. lia. }
  split.
  { simpl final. rewrite deref_after_store by exact Hnn.
    rewrite decide_True by reflexivity. fold stored.
    rewrite store_elems_within by exact Hfit. reflexivity. }
  split; [| split; reflexivity].
  intros Hne. simpl final. rewrite deref_after_store by exact Hnn.
  rewrite decide_False by exact Hne. exact Hi.
Qed.

(** ** References of the wrong kind *)

Ltac run_call H E :=
  unfold call, mbind, M_mbind, M_bind in H; rewrite E in H; simpl in H.

Ltac run_goal E :=
  unfold call, mbind, M_mbind, M_bind; rewrite E; simpl.

Lemma reference_fault_cases (a : jobject) :
  reference_fault a = NullReference ∨ reference_fault a = WrongReference.
Proof. unfold reference_fault. destruct (a =? NULL)%N; auto. Qed.

(** X4. The binding checks none of its references.  When a reference
    argument is null or denotes an object of another kind than the
    function takes it for, the call does not return: it faults in the JNI
    call that receives the reference, before any library call, and leaves
    the library as it was. *)
Theorem ill_typed_call_faults_before_library (op : Operation) (w : World L) :
  well_typed op w = false →
  let o := call op w in
  returned o = None
  ∧ (fault o = Some NullReference ∨ fault o = Some WrongReference)
  ∧ library_calls (events o) = []
  ∧ lcms (final o) = lcms w.
Proof.
  destruct op as [filename mode | dataBuffer | h | h | h | hi ti ho to i f
                 | h | h inputBuffer outputBuffer size | | gamma ];
    cbn [well_typed]; try discriminate.
  - destruct (string_behind filename w) as [f |] eqn:Ef.
    + destruct (string_behind mode w) as [m |] eqn:Em; [discriminate |].
      intros _.
      destruct (run_OpenProfileFromFile_no_mode w filename mode f Ef Em)
        as (wc & E & Hl).
      run_goal E. rewrite Hl.
      pose proof (reference_fault_cases mode) as [-> | ->]; auto 6.
    + intros _.
      run_goal (run_OpenProfileFromFile_no_filename w filename mode Ef).
      pose proof (reference_fault_cases filename) as [-> | ->]; auto 6.
  - destruct (array_behind dataBuffer w) as [bs |] eqn:Ed; [discriminate |].
    intros _. run_goal (run_OpenProfileFromMem_no_array w dataBuffer Ed).
    pose proof (reference_fault_cases dataBuffer) as [-> | ->]; auto 6.
  - destruct (array_behind inputBuffer w) as [ibs |] eqn:Ei.
    + destruct (array_behind outputBuffer w) as [obs |] eqn:Eo; [discriminate |].
      intros _.
      destruct (run_DoTransform_no_output w h inputBuffer outputBuffer size ibs Ei Eo)
        as (wc & E & Hl).
      run_goal E. rewrite Hl.
      pose proof (reference_fault_cases outputBuffer) as [-> | ->]; auto 6.
    + intros _.
      run_goal (run_DoTransform_no_input w h inputBuffer outputBuffer size Ei).
      pose proof (reference_fault_cases inputBuffer) as [-> | ->]; auto 6.
Qed.


(** ** What a call leaves alone *)

Lemma deref_kept_after_fresh_store (a : jobject) x y (w : World L) l :
  deref a w = Some x →
  deref a (set_heap (<[fresh_key (heap w) := y]> (heap w)) (set_lcms l w))
  = Some x.
Proof.
  intros Ha. rewrite deref_after_store by apply fresh_key_not_null.
  destruct (decide (a = fresh_key (heap w))) as [-> | _]; [| exact Ha].
  rewrite deref_fresh in Ha. discriminate.
Qed.



(** ** Handles *)

Lemma save_first_call (w : World L) (hprofile : jlong) :
  let p := Int.pointer_of_jlong hprofile in
  let q := cmsSaveProfileToMem p None 0 (lcms w) in
  take 1 (library_calls
            (events (Java_com_gmail_etordera_jcms_JCMS_cmsSaveProfileToMem hprofile w)))
  = [CallSaveProfileToMem p None 0 q.1.1.1 q.1.1.2].
Proof.
  intros p q. destruct (q.1.1.1) eqn:Hq.
  - destruct (Z_lt_ge_dec (q.1.1.2) (2 ^ 31)) as [Hn | Hn].
    + pose proof (run_SaveProfileToMem_fill w hprofile Hq Hn) as E.
      cbv zeta in E. rewrite E.
      destruct (cmsSaveProfileToMem _ (Some _) _ _).1.1.1; reflexivity.
    + assert (2 ^ 31 <= q.1.1.2) as Hn' by lia.
      rewrite (run_SaveProfileToMem_too_large w hprofile Hq Hn'). reflexivity.
  - rewrite (run_SaveProfileToMem_query_fails w hprofile Hq). reflexivity.
Qed.

(** X8. A handle survives the caller: when the caller passes back the jlong
    that stands for a pointer of the library, close-profile,
    get-description, save-to-memory, delete-transform and create-transform
    hand the library that very pointer (create-transform beside its four
    codes, each converted to cmsUInt32Number). *)
Theorem handle_reaches_library_unchanged (w : World L) (p : Z) :
  Int.is_pointer p →
  let h := Int.jlong_of_pointer p in
  library_calls (events (Java_com_gmail_etordera_jcms_JCMS_cmsCloseProfile h w))
  = [CallCloseProfile p (cmsCloseProfile p (lcms w)).1]
  ∧ take 1 (library_calls
              (events (Java_com_gmail_etordera_jcms_JCMS_cmsGetProfileInfoASCII h w)))
    = [CallGetProfileInfoASCII p cmsInfoDescription lit_en lit_EN 512]
  ∧ (∃ ok n,
       take 1 (library_calls
                 (events (Java_com_gmail_etordera_jcms_JCMS_cmsSaveProfileToMem h w)))
       = [CallSaveProfileToMem p None 0 ok n])
  ∧ library_calls (events (Java_com_gmail_etordera_jcms_JCMS_cmsDeleteTransform h w))
    = [CallDeleteTransform p]
  ∧ (∀ inputType outputType intent flags,
       ∃ t,
         library_calls
           (events (Java_com_gmail_etordera_jcms_JCMS_cmsCreateTransform
                      h inputType h outputType intent flags w))
         = [CallCreateTransform p (Int.uint32_of_jint inputType)
              p (Int.uint32_of_jint outputType)
              (Int.uint32_of_jint intent) (Int.uint32_of_jint flags) t]).
Proof.
  intros Hp h.
  pose proof (IntFacts.pointer_of_jlong_of_pointer p Hp) as Hback. fold h in Hback.
  split; [| split; [| split; [| split]]].
  - rewrite run_CloseProfile. rewrite Hback. reflexivity.
  - rewrite run_GetProfileInfoASCII. rewrite Hback.
    destruct (read_cstring _); reflexivity.
  - eexists _, _. rewrite save_first_call. rewrite Hback. reflexivity.
  - rewrite run_DeleteTransform. rewrite Hback. reflexivity.
  - intros inputType outputType intent flags. eexists.
    rewrite run_CreateTransform. rewrite Hback. reflexivity.
Qed.

(** X9. The two functions that synthesize a profile return the handle the
    library returned, cast to jlong: zero exactly when the library
    returned the null pointer, and the cast back is the library's
    pointer.  Neither creates an object, acquires a view or raises an
    exception. *)
Theorem synthesized_profile_is_library_handle (w : World L) (gamma : jdouble) :
  let rgb := (cmsCreate_sRGBProfile (lcms w)).1 in
  let curve := cmsBuildGamma 0 gamma (lcms w) in
  let g := (cmsCreateGrayProfile (cmsD50_xyY curve.2) curve.1 curve.2).1 in
  let made := Java_com_gmail_etordera_jcms_JCMS_cmsCreate_1sRGBProfile w in
  let gray := Java_com_gmail_etordera_jcms_JCMS_cmsCreateGrayProfile gamma w in
  returned made = Some (Int.jlong_of_pointer rgb)
  ∧ library_calls (events made) = [CallCreate_sRGBProfile rgb]
  ∧ Int.pointer_of_jlong (Int.jlong_of_pointer rgb) = rgb
  ∧ (Int.jlong_of_pointer rgb = 0 ↔ rgb = 0)
  ∧ returned gray = Some (Int.jlong_of_pointer g)
  ∧ (Int.jlong_of_pointer g = 0 ↔ g = 0)
  ∧ (∀ o, o = made ∨ o = gray →
          heap (final o) = heap w
          ∧ views (final o) = views w
          ∧ pending (final o) = pending w
          ∧ acquired (events o) = []).
Proof.
  intros rgb curve g made gray.
  pose proof (cmsCreate_sRGBProfile_pointer (lcms w)) as Hp. fold rgb in Hp.
  pose proof (cmsCreateGrayProfile_pointer (cmsD50_xyY curve.2) curve.1 curve.2)
    as Hg. fold g in Hg.
  assert (made = Returns (Int.jlong_of_pointer rgb)
                   (set_lcms (cmsCreate_sRGBProfile (lcms w)).2 w)
                   [EvLcms (CallCreate_sRGBProfile rgb)]) as Hmade
      by apply run_Create_sRGBProfile.
  pose proof (run_CreateGrayProfile w gamma) as Hgray.
  cbv zeta in Hgray. fold curve g gray in Hgray.
  split; [rewrite Hmade; reflexivity |].
  split; [rewrite Hmade; reflexivity |].
  split; [apply IntFacts.pointer_of_jlong_of_pointer, Hp |].
  split; [apply IntFacts.jlong_of_pointer_null, Hp |].
  split; [rewrite Hgray; reflexivity |].
  split; [apply IntFacts.jlong_of_pointer_null, Hg |].
  intros o [-> | ->]; [rewrite Hmade | rewrite Hgray]; repeat split; reflexivity.
Qed.



End Extras.

(** ** The further properties on the sample scripts *)

Module MoreRuns.

Lemma description_text_witness :
  let w := Sample.world Sample.plain in
  ∃ r,
    returned (Java_com_gmail_etordera_jcms_JCMS_cmsGetProfileInfoASCII 1 w) = Some r
    ∧ r ≠ NULL
    ∧ deref r w = None
    ∧ deref r (final (Java_com_gmail_etordera_jcms_JCMS_cmsGetProfileInfoASCII 1 w))
      = Some (JString (before_nul (Sample.text_sRGB ++ [x00]))).
Proof.
  refine (description_is_text_before_first_nul (Sample.world Sample.plain) 1 _).
  apply (list_elem_of_lookup_2 _ 4%nat). reflexivity.
Defined.

Lemma save_stored_bytes_witness :
  let w := Sample.world Sample.plain in
  let o := Java_com_gmail_etordera_jcms_JCMS_cmsSaveProfileToMem 1 w in
  ∃ r,
    returned o = Some r
    ∧ deref r (final o) = Some (JByteArray ([x01; x02; x03; x04] ++ []))
    ∧ (4 = 4 → deref r (final o) = Some (JByteArray [x01; x02; x03; x04]))
    ∧ pending (final o) = pending w.
Proof.
  refine (save_returns_stored_bytes (Sample.world Sample.plain) 1
            eq_refl eq_refl eq_refl _).
  vm_compute. intros H. discriminate H.
Defined.

Lemma save_oversized_witness :
  let w := Sample.world Sample.huge in
  let o := Java_com_gmail_etordera_jcms_JCMS_cmsSaveProfileToMem 1 w in
  returned o = None
  ∧ fault o = Some NullReference
  ∧ pending (final o) = Some NegativeArraySizeException
  ∧ library_calls (events o) = [CallSaveProfileToMem 1 None 0 true (2 ^ 31)]
  ∧ (∃ len, len < 0 ∧ last (events o) = Some (EvNewByteArray len NULL))
  ∧ heap (final o) = heap w.
Proof.
  refine (save_oversized_profile_faults (Sample.world Sample.huge) 1 eq_refl _).
  vm_compute. intros H. discriminate H.
Defined.

Lemma saved_profile_reopens_witness :
  let w := Sample.world Sample.plain in
  let saved := Java_com_gmail_etordera_jcms_JCMS_cmsSaveProfileToMem 1 w in
  ∃ r,
    returned saved = Some r
    ∧ let reopened :=
        Java_com_gmail_etordera_jcms_JCMS_cmsOpenProfileFromMem r (final saved) in
      library_calls (events reopened)
      = [CallOpenProfileFromMem [x01; x02; x03; x04] 4 4096]
      ∧ returned reopened = Some (Int.jlong_of_pointer 4096)
      ∧ deref r (final reopened) = Some (JByteArray [x01; x02; x03; x04]).
Proof.
  exact (saved_profile_reopens (Sample.world Sample.plain) 1
           eq_refl eq_refl eq_refl).
Defined.

Lemma apply_transform_witness :
  let w := Sample.world Sample.plain in
  let o := Java_com_gmail_etordera_jcms_JCMS_cmsDoTransform 1 3%N 4%N 1 w in
  returned o = Some tt
  ∧ library_calls (events o)
    = [CallDoTransform 1 [x0a; x0b; x0c] [x00; x00; x00] 1]
  ∧ (Int.is_jint 1 → Int.jint_of_uint32 1 = 1 ∧ (0 <= 1 → 1 = 1))
  ∧ deref 4%N (final o) = Some (JByteArray ([xff; xfe; xfd] ++ []))
  ∧ (3%N ≠ 4%N → deref 3%N (final o) = Some (JByteArray [x0a; x0b; x0c]))
  ∧ views (final o) = views w
  ∧ pending (final o) = pending w.
Proof.
  refine (apply_transform_stores_into_output (Sample.world Sample.plain) 1
            3%N 4%N 1 [x0a; x0b; x0c] [x00; x00; x00] eq_refl eq_refl _).
  vm_compute. lia.
Defined.

(** A null array, and a String where an array is expected. *)
Lemma ill_typed_call_witness :
  (let o := call (OpenProfileFromMem NULL) (Sample.world Sample.plain) in
   returned o = None
   ∧ (fault o = Some NullReference ∨ fault o = Some WrongReference)
   ∧ library_calls (events o) = []
   ∧ lcms (final o) = Sample.plain)
  ∧ (let o := call (DoTransform 1 3%N 1%N 1) (Sample.world Sample.plain) in
     returned o = None
     ∧ (fault o = Some NullReference ∨ fault o = Some WrongReference)
     ∧ library_calls (events o) = []
     ∧ lcms (final o) = Sample.plain).
Proof.
  split.
  - exact (ill_typed_call_faults_before_library (OpenProfileFromMem NULL)
             (Sample.world Sample.plain) eq_refl).
  - exact (ill_typed_call_faults_before_library (DoTransform 1 3%N 1%N 1)
             (Sample.world Sample.plain) eq_refl).
Defined.


Lemma views_released_witness :
  let w := Sample.world Sample.plain in
  let o := call (OpenProfileFromFile 1%N 2%N) w in
  released_exactly_once (events o) ∧ views (final o) = views w.
Proof.
  refine (returning_call_releases_each_view_once (OpenProfileFromFile 1%N 2%N)
            (Sample.world Sample.plain) _ (RLong 4096) _ _).
  vm_compute. reflexivity.
Defined.



Lemma handle_reaches_library_witness :
  let w := Sample.world Sample.plain in
  let h := Int.jlong_of_pointer (2 ^ 64 - 1) in
  h = -1
  ∧ library_calls (events (Java_com_gmail_etordera_jcms_JCMS_cmsCloseProfile h w))
    = [CallCloseProfile (2 ^ 64 - 1) false]
  ∧ library_calls (events (Java_com_gmail_etordera_jcms_JCMS_cmsDeleteTransform h w))
    = [CallDeleteTransform (2 ^ 64 - 1)].
Proof.
  assert (Int.is_pointer (2 ^ 64 - 1)) as Hp by (unfold Int.is_pointer; simpl; lia).
  destruct (handle_reaches_library_unchanged (Sample.world Sample.plain)
              (2 ^ 64 - 1) Hp) as (Hclose & _ & _ & Hdelete & _).
  split; [reflexivity |]. split; [exact Hclose | exact Hdelete].
Defined.



End MoreRuns.
